(** * The chat widget of chat-bot/static/js/app.js

    A shallow embedding of the [ChatBot] class: its fields and the parts of
    the page it reads and writes are a record, its methods are functions on
    that record, and its asynchronous methods are cut at their [await]s into
    the handlers of an event system. *)

From Stdlib Require Import ZArith NArith QArith Lia String Ascii.
From stdpp Require Import base list.

Local Open Scope nat_scope.

(** ** Strings

    A JavaScript string is a sequence of UTF-16 code units. *)

Abbreviation jsstring := (list N).

Definition lit (s : string) : jsstring :=
  map N_of_ascii (list_ascii_of_string s).

Definition SPACE : N := 32%N.

(** The code units [String.prototype.trim] strips: WhiteSpace and
    LineTerminator of the language specification. *)
Definition is_white (c : N) : bool :=
  ((9 <=? c) && (c <=? 13) || (c =? 32) || (c =? 160) || (c =? 5760)
   || (8192 <=? c) && (c <=? 8202) || (c =? 8232) || (c =? 8233)
   || (c =? 8239) || (c =? 8287) || (c =? 12288) || (c =? 65279))%N.

Fixpoint trimStart (s : jsstring) : jsstring :=
  match s with
  | c :: s' => if is_white c then trimStart s' else s
  | [] => []
  end.

Definition trimEnd (s : jsstring) : jsstring := rev (trimStart (rev s)).

Definition trim (s : jsstring) : jsstring := trimEnd (trimStart s).

(** [text.split(' ')]: the pieces between single spaces; consecutive spaces
    give empty pieces, and the empty string gives one empty piece. *)
Fixpoint split (s : jsstring) : list jsstring :=
  match s with
  | [] => [[]]
  | c :: s' =>
      if (c =? SPACE)%N then [] :: split s'
      else match split s' with
           | w :: ws => (c :: w) :: ws
           | [] => [[c]]
           end
  end.

(** ** typeText

    [words] and [i] are the variables of the loop; a task is the loop
    suspended in its [await], about to run [i++] and the test. *)
Record type_task := { words : list jsstring; next_i : nat }.

(** One pass of the loop body at index [i]:
    [element.textContent += (i > 0 ? ' ' : '') + words[i]]. *)
Definition type_word (i : nat) (w : jsstring) (textContent : jsstring) : jsstring :=
  textContent ++ (if 0 <? i then [SPACE] else []) ++ w.

(** The loop from index [i] on, [rest] being [words.slice(i)]. *)
Fixpoint typeText_from (i : nat) (rest : list jsstring) (textContent : jsstring) : jsstring :=
  match rest with
  | [] => textContent
  | w :: rest' => typeText_from (S i) rest' (type_word i w textContent)
  end.

(** The text of the element once the animation has run to its end. *)
Definition typeText (text : jsstring) : jsstring :=
  typeText_from 0 (split text) [].

(** ** simulateTypingDelay

    The duration, in milliseconds, handed to [setTimeout]. *)
Definition simulateTypingDelay (textLength : Z) : Z :=
  let baseDelay := 1000%Z in
  let charDelay := Z.min (textLength * 30) 2000 in
  (baseDelay + charDelay)%Z.

(** ** JSON values, property reads and exceptions *)

(** What [response.json()] resolves to; a number is a fraction in lowest
    terms. *)
#[local] Set Warnings "-register-all".
Inductive json :=
  | JNull
  | JBool (b : bool)
  | JNum (q : Q)
  | JStr (s : jsstring)
  | JArr (items : list json)
  | JObj (members : list (jsstring * json)).

(** The exceptions the two handlers can meet. *)
Inductive js_error :=
  | FetchRejected                (* fetch() rejected: no response at all *)
  | BodyRejected                 (* response.json() rejected: not JSON *)
  | ReadOfNothing                (* a property read on null or undefined *)
  | ErrorOf (message : json).    (* new Error(message) *)

Inductive completion (A : Type) :=
  | Normal (a : A)
  | Throw (e : js_error).
Arguments Normal {A} a.
Arguments Throw {A} e.

Definition bind {A B} (c : completion A) (k : A -> completion B) : completion B :=
  match c with
  | Normal a => k a
  | Throw e => Throw e
  end.

Notation "'let*' x := c 'in' k" := (bind c (fun x => k))
  (at level 10, x name, c at level 100, k at level 200).

(** An own property of a parsed object: of members with the same key the
    last one stands. *)
Fixpoint member (name : jsstring) (members : list (jsstring * json)) : option json :=
  match members with
  | [] => None
  | (k, v) :: rest =>
      match member name rest with
      | Some v' => Some v'
      | None => if bool_decide (k = name) then Some v else None
      end
  end.

(** [v.name] for the names read in this file ([reply], [length], [status],
    [detail]); [None] is [undefined]. *)
Definition get (name : jsstring) (v : option json) : completion (option json) :=
  match v with
  | None | Some JNull => Throw ReadOfNothing
  | Some (JObj ms) => Normal (member name ms)
  | Some (JStr s) =>
      if bool_decide (name = lit "length")
      then Normal (Some (JNum (inject_Z (Z.of_nat (length s)))))
      else Normal None
  | Some (JArr l) =>
      if bool_decide (name = lit "length")
      then Normal (Some (JNum (inject_Z (Z.of_nat (length l)))))
      else Normal None
  | Some (JBool _) | Some (JNum _) => Normal None
  end.

(** ToBoolean, as [||] applies it. *)
Definition truthy (v : option json) : bool :=
  match v with
  | None | Some JNull => false
  | Some (JBool b) => b
  | Some (JNum q) => negb (Qeq_bool q 0)
  | Some (JStr s) => negb (bool_decide (s = []))
  | Some (JArr _) | Some (JObj _) => true
  end.

(** The outcome of a [fetch] followed by [response.json()]: the body is
    [None] when it does not parse. *)
Inductive fetch_result :=
  | Rejected
  | Responded (ok : bool) (body : option json).

Definition response_json (body : option json) : completion json :=
  match body with
  | Some data => Normal data
  | None => Throw BodyRejected
  end.

(** ** The page and the object *)

Inductive sender := user | bot.

(** An element in [#chatMessages]: an element of the page as loaded, with
    or without the class [welcome-message], with its own markup and the
    elements inside it, or a message built by [addMessage] ([textContent]
    is that of its [.message-text], [time] that of its [.message-time],
    [typing] the [typeText] task still writing into it; nothing inside a
    message has the class [welcome-message]). *)
Inductive element :=
  | Markup (welcome : bool) (html : jsstring) (inner : list element)
  | MessageDiv (from : sender) (textContent : jsstring) (time : jsstring)
               (typing : option type_task).

(** The text of the toast: a string, or the message an engine-made
    exception carries. *)
Inductive toast_text :=
  | Text (s : jsstring)
  | MessageOf (e : js_error).

(** A call of [fetch] with a body; [body] is the value [JSON.stringify]
    serialises. *)
Record request := {
  url : jsstring;
  method : jsstring;
  content_type : jsstring;
  body : json
}.

(** [sendMessage] suspended in [await this.simulateTypingDelay(...)]:
    [data.reply] and the duration of the timer. The duration is recorded
    when [data.reply.length] is an integer, as the length of a string is. *)
Record delayed := { reply : json; timer : option Z }.

Record state := {
  (* fields of the ChatBot object *)
  isTyping : bool;
  messageCount : nat;
  currentTheme : jsstring;
  (* the page *)
  inputValue : jsstring;          (* messageInput.value *)
  chatMessages : list element;    (* children of messagesContainer *)
  sendDisabled : bool;            (* sendButton.disabled *)
  charCount : nat;                (* charCount.textContent *)
  counterAlert : option jsstring; (* 'warning' or 'error' on the counter *)
  typingShown : bool;             (* typingIndicator has class show *)
  loadingShown : bool;            (* loadingOverlay has class show *)
  loadingText : jsstring;
  toastShown : bool;              (* errorToast has class show *)
  toastText : toast_text;
  botStatus : jsstring;           (* the class after 'bot-status ' *)
  dataTheme : option jsstring;    (* data-theme of the document element *)
  themeIcon : jsstring;           (* class of the icon of the theme button *)
  (* localStorage *)
  storedTheme : option jsstring;  (* localStorage.getItem('theme') *)
  (* work suspended in an await or a timer *)
  healthPending : bool;           (* fetch('/health') not settled *)
  inflight : list request;        (* fetch('/chat', ...) not settled *)
  delaying : list delayed;        (* typing delays not elapsed *)
  toastTimers : nat               (* auto-hide timers of the toast *)
}.

Definition set_isTyping (v : bool) (s : state) : state :=
  {| isTyping := v; messageCount := messageCount s;
     currentTheme := currentTheme s; inputValue := inputValue s;
     chatMessages := chatMessages s; sendDisabled := sendDisabled s;
     charCount := charCount s; counterAlert := counterAlert s;
     typingShown := typingShown s; loadingShown := loadingShown s;
     loadingText := loadingText s; toastShown := toastShown s;
     toastText := toastText s; botStatus := botStatus s;
     dataTheme := dataTheme s; themeIcon := themeIcon s;
     storedTheme := storedTheme s; healthPending := healthPending s;
     inflight := inflight s; delaying := delaying s;
     toastTimers := toastTimers s |}.

Definition set_messageCount (v : nat) (s : state) : state :=
  {| isTyping := isTyping s; messageCount := v;
     currentTheme := currentTheme s; inputValue := inputValue s;
     chatMessages := chatMessages s; sendDisabled := sendDisabled s;
     charCount := charCount s; counterAlert := counterAlert s;
     typingShown := typingShown s; loadingShown := loadingShown s;
     loadingText := loadingText s; toastShown := toastShown s;
     toastText := toastText s; botStatus := botStatus s;
     dataTheme := dataTheme s; themeIcon := themeIcon s;
     storedTheme := storedTheme s; healthPending := healthPending s;
     inflight := inflight s; delaying := delaying s;
     toastTimers := toastTimers s |}.

Definition set_currentTheme (v : jsstring) (s : state) : state :=
  {| isTyping := isTyping s; messageCount := messageCount s;
     currentTheme := v; inputValue := inputValue s;
     chatMessages := chatMessages s; sendDisabled := sendDisabled s;
     charCount := charCount s; counterAlert := counterAlert s;
     typingShown := typingShown s; loadingShown := loadingShown s;
     loadingText := loadingText s; toastShown := toastShown s;
     toastText := toastText s; botStatus := botStatus s;
     dataTheme := dataTheme s; themeIcon := themeIcon s;
     storedTheme := storedTheme s; healthPending := healthPending s;
     inflight := inflight s; delaying := delaying s;
     toastTimers := toastTimers s |}.

Definition set_inputValue (v : jsstring) (s : state) : state :=
  {| isTyping := isTyping s; messageCount := messageCount s;
     currentTheme := currentTheme s; inputValue := v;
     chatMessages := chatMessages s; sendDisabled := sendDisabled s;
     charCount := charCount s; counterAlert := counterAlert s;
     typingShown := typingShown s; loadingShown := loadingShown s;
     loadingText := loadingText s; toastShown := toastShown s;
     toastText := toastText s; botStatus := botStatus s;
     dataTheme := dataTheme s; themeIcon := themeIcon s;
     storedTheme := storedTheme s; healthPending := healthPending s;
     inflight := inflight s; delaying := delaying s;
     toastTimers := toastTimers s |}.

Definition set_chatMessages (v : list element) (s : state) : state :=
  {| isTyping := isTyping s; messageCount := messageCount s;
     currentTheme := currentTheme s; inputValue := inputValue s;
     chatMessages := v; sendDisabled := sendDisabled s;
     charCount := charCount s; counterAlert := counterAlert s;
     typingShown := typingShown s; loadingShown := loadingShown s;
     loadingText := loadingText s; toastShown := toastShown s;
     toastText := toastText s; botStatus := botStatus s;
     dataTheme := dataTheme s; themeIcon := themeIcon s;
     storedTheme := storedTheme s; healthPending := healthPending s;
     inflight := inflight s; delaying := delaying s;
     toastTimers := toastTimers s |}.

Definition set_sendDisabled (v : bool) (s : state) : state :=
  {| isTyping := isTyping s; messageCount := messageCount s;
     currentTheme := currentTheme s; inputValue := inputValue s;
     chatMessages := chatMessages s; sendDisabled := v;
     charCount := charCount s; counterAlert := counterAlert s;
     typingShown := typingShown s; loadingShown := loadingShown s;
     loadingText := loadingText s; toastShown := toastShown s;
     toastText := toastText s; botStatus := botStatus s;
     dataTheme := dataTheme s; themeIcon := themeIcon s;
     storedTheme := storedTheme s; healthPending := healthPending s;
     inflight := inflight s; delaying := delaying s;
     toastTimers := toastTimers s |}.

Definition set_charCount (v : nat) (s : state) : state :=
  {| isTyping := isTyping s; messageCount := messageCount s;
     currentTheme := currentTheme s; inputValue := inputValue s;
     chatMessages := chatMessages s; sendDisabled := sendDisabled s;
     charCount := v; counterAlert := counterAlert s;
     typingShown := typingShown s; loadingShown := loadingShown s;
     loadingText := loadingText s; toastShown := toastShown s;
     toastText := toastText s; botStatus := botStatus s;
     dataTheme := dataTheme s; themeIcon := themeIcon s;
     storedTheme := storedTheme s; healthPending := healthPending s;
     inflight := inflight s; delaying := delaying s;
     toastTimers := toastTimers s |}.

Definition set_counterAlert (v : option jsstring) (s : state) : state :=
  {| isTyping := isTyping s; messageCount := messageCount s;
     currentTheme := currentTheme s; inputValue := inputValue s;
     chatMessages := chatMessages s; sendDisabled := sendDisabled s;
     charCount := charCount s; counterAlert := v;
     typingShown := typingShown s; loadingShown := loadingShown s;
     loadingText := loadingText s; toastShown := toastShown s;
     toastText := toastText s; botStatus := botStatus s;
     dataTheme := dataTheme s; themeIcon := themeIcon s;
     storedTheme := storedTheme s; healthPending := healthPending s;
     inflight := inflight s; delaying := delaying s;
     toastTimers := toastTimers s |}.

Definition set_typingShown (v : bool) (s : state) : state :=
  {| isTyping := isTyping s; messageCount := messageCount s;
     currentTheme := currentTheme s; inputValue := inputValue s;
     chatMessages := chatMessages s; sendDisabled := sendDisabled s;
     charCount := charCount s; counterAlert := counterAlert s;
     typingShown := v; loadingShown := loadingShown s;
     loadingText := loadingText s; toastShown := toastShown s;
     toastText := toastText s; botStatus := botStatus s;
     dataTheme := dataTheme s; themeIcon := themeIcon s;
     storedTheme := storedTheme s; healthPending := healthPending s;
     inflight := inflight s; delaying := delaying s;
     toastTimers := toastTimers s |}.

Definition set_loadingShown (v : bool) (s : state) : state :=
  {| isTyping := isTyping s; messageCount := messageCount s;
     currentTheme := currentTheme s; inputValue := inputValue s;
     chatMessages := chatMessages s; sendDisabled := sendDisabled s;
     charCount := charCount s; counterAlert := counterAlert s;
     typingShown := typingShown s; loadingShown := v;
     loadingText := loadingText s; toastShown := toastShown s;
     toastText := toastText s; botStatus := botStatus s;
     dataTheme := dataTheme s; themeIcon := themeIcon s;
     storedTheme := storedTheme s; healthPending := healthPending s;
     inflight := inflight s; delaying := delaying s;
     toastTimers := toastTimers s |}.

Definition set_loadingText (v : jsstring) (s : state) : state :=
  {| isTyping := isTyping s; messageCount := messageCount s;
     currentTheme := currentTheme s; inputValue := inputValue s;
     chatMessages := chatMessages s; sendDisabled := sendDisabled s;
     charCount := charCount s; counterAlert := counterAlert s;
     typingShown := typingShown s; loadingShown := loadingShown s;
     loadingText := v; toastShown := toastShown s; toastText := toastText s;
     botStatus := botStatus s; dataTheme := dataTheme s;
     themeIcon := themeIcon s; storedTheme := storedTheme s;
     healthPending := healthPending s; inflight := inflight s;
     delaying := delaying s; toastTimers := toastTimers s |}.

Definition set_toastShown (v : bool) (s : state) : state :=
  {| isTyping := isTyping s; messageCount := messageCount s;
     currentTheme := currentTheme s; inputValue := inputValue s;
     chatMessages := chatMessages s; sendDisabled := sendDisabled s;
     charCount := charCount s; counterAlert := counterAlert s;
     typingShown := typingShown s; loadingShown := loadingShown s;
     loadingText := loadingText s; toastShown := v; toastText := toastText s;
     botStatus := botStatus s; dataTheme := dataTheme s;
     themeIcon := themeIcon s; storedTheme := storedTheme s;
     healthPending := healthPending s; inflight := inflight s;
     delaying := delaying s; toastTimers := toastTimers s |}.

Definition set_toastText (v : toast_text) (s : state) : state :=
  {| isTyping := isTyping s; messageCount := messageCount s;
     currentTheme := currentTheme s; inputValue := inputValue s;
     chatMessages := chatMessages s; sendDisabled := sendDisabled s;
     charCount := charCount s; counterAlert := counterAlert s;
     typingShown := typingShown s; loadingShown := loadingShown s;
     loadingText := loadingText s; toastShown := toastShown s;
     toastText := v; botStatus := botStatus s; dataTheme := dataTheme s;
     themeIcon := themeIcon s; storedTheme := storedTheme s;
     healthPending := healthPending s; inflight := inflight s;
     delaying := delaying s; toastTimers := toastTimers s |}.

Definition set_botStatus (v : jsstring) (s : state) : state :=
  {| isTyping := isTyping s; messageCount := messageCount s;
     currentTheme := currentTheme s; inputValue := inputValue s;
     chatMessages := chatMessages s; sendDisabled := sendDisabled s;
     charCount := charCount s; counterAlert := counterAlert s;
     typingShown := typingShown s; loadingShown := loadingShown s;
     loadingText := loadingText s; toastShown := toastShown s;
     toastText := toastText s; botStatus := v; dataTheme := dataTheme s;
     themeIcon := themeIcon s; storedTheme := storedTheme s;
     healthPending := healthPending s; inflight := inflight s;
     delaying := delaying s; toastTimers := toastTimers s |}.

Definition set_dataTheme (v : option jsstring) (s : state) : state :=
  {| isTyping := isTyping s; messageCount := messageCount s;
     currentTheme := currentTheme s; inputValue := inputValue s;
     chatMessages := chatMessages s; sendDisabled := sendDisabled s;
     charCount := charCount s; counterAlert := counterAlert s;
     typingShown := typingShown s; loadingShown := loadingShown s;
     loadingText := loadingText s; toastShown := toastShown s;
     toastText := toastText s; botStatus := botStatus s; dataTheme := v;
     themeIcon := themeIcon s; storedTheme := storedTheme s;
     healthPending := healthPending s; inflight := inflight s;
     delaying := delaying s; toastTimers := toastTimers s |}.

Definition set_themeIcon (v : jsstring) (s : state) : state :=
  {| isTyping := isTyping s; messageCount := messageCount s;
     currentTheme := currentTheme s; inputValue := inputValue s;
     chatMessages := chatMessages s; sendDisabled := sendDisabled s;
     charCount := charCount s; counterAlert := counterAlert s;
     typingShown := typingShown s; loadingShown := loadingShown s;
     loadingText := loadingText s; toastShown := toastShown s;
     toastText := toastText s; botStatus := botStatus s;
     dataTheme := dataTheme s; themeIcon := v; storedTheme := storedTheme s;
     healthPending := healthPending s; inflight := inflight s;
     delaying := delaying s; toastTimers := toastTimers s |}.

Definition set_storedTheme (v : option jsstring) (s : state) : state :=
  {| isTyping := isTyping s; messageCount := messageCount s;
     currentTheme := currentTheme s; inputValue := inputValue s;
     chatMessages := chatMessages s; sendDisabled := sendDisabled s;
     charCount := charCount s; counterAlert := counterAlert s;
     typingShown := typingShown s; loadingShown := loadingShown s;
     loadingText := loadingText s; toastShown := toastShown s;
     toastText := toastText s; botStatus := botStatus s;
     dataTheme := dataTheme s; themeIcon := themeIcon s; storedTheme := v;
     healthPending := healthPending s; inflight := inflight s;
     delaying := delaying s; toastTimers := toastTimers s |}.

Definition set_healthPending (v : bool) (s : state) : state :=
  {| isTyping := isTyping s; messageCount := messageCount s;
     currentTheme := currentTheme s; inputValue := inputValue s;
     chatMessages := chatMessages s; sendDisabled := sendDisabled s;
     charCount := charCount s; counterAlert := counterAlert s;
     typingShown := typingShown s; loadingShown := loadingShown s;
     loadingText := loadingText s; toastShown := toastShown s;
     toastText := toastText s; botStatus := botStatus s;
     dataTheme := dataTheme s; themeIcon := themeIcon s;
     storedTheme := storedTheme s; healthPending := v;
     inflight := inflight s; delaying := delaying s;
     toastTimers := toastTimers s |}.

Definition set_inflight (v : list request) (s : state) : state :=
  {| isTyping := isTyping s; messageCount := messageCount s;
     currentTheme := currentTheme s; inputValue := inputValue s;
     chatMessages := chatMessages s; sendDisabled := sendDisabled s;
     charCount := charCount s; counterAlert := counterAlert s;
     typingShown := typingShown s; loadingShown := loadingShown s;
     loadingText := loadingText s; toastShown := toastShown s;
     toastText := toastText s; botStatus := botStatus s;
     dataTheme := dataTheme s; themeIcon := themeIcon s;
     storedTheme := storedTheme s; healthPending := healthPending s;
     inflight := v; delaying := delaying s; toastTimers := toastTimers s |}.

Definition set_delaying (v : list delayed) (s : state) : state :=
  {| isTyping := isTyping s; messageCount := messageCount s;
     currentTheme := currentTheme s; inputValue := inputValue s;
     chatMessages := chatMessages s; sendDisabled := sendDisabled s;
     charCount := charCount s; counterAlert := counterAlert s;
     typingShown := typingShown s; loadingShown := loadingShown s;
     loadingText := loadingText s; toastShown := toastShown s;
     toastText := toastText s; botStatus := botStatus s;
     dataTheme := dataTheme s; themeIcon := themeIcon s;
     storedTheme := storedTheme s; healthPending := healthPending s;
     inflight := inflight s; delaying := v; toastTimers := toastTimers s |}.

Definition set_toastTimers (v : nat) (s : state) : state :=
  {| isTyping := isTyping s; messageCount := messageCount s;
     currentTheme := currentTheme s; inputValue := inputValue s;
     chatMessages := chatMessages s; sendDisabled := sendDisabled s;
     charCount := charCount s; counterAlert := counterAlert s;
     typingShown := typingShown s; loadingShown := loadingShown s;
     loadingText := loadingText s; toastShown := toastShown s;
     toastText := toastText s; botStatus := botStatus s;
     dataTheme := dataTheme s; themeIcon := themeIcon s;
     storedTheme := storedTheme s; healthPending := healthPending s;
     inflight := inflight s; delaying := delaying s; toastTimers := v |}.

(** ** Methods

    [autoResizeTextarea] and [scrollToBottom] write only layout properties
    (a height, a scroll offset) that are no part of [state]; their calls
    are left out below. *)

Definition updateCharCount (s : state) : state :=
  let count := length (inputValue s) in
  set_counterAlert
    (if 400 <? count then Some (lit "error")
     else if 300 <? count then Some (lit "warning")
     else None)
    (set_charCount count s).

Definition updateSendButton (s : state) : state :=
  let hasText := 0 <? length (trim (inputValue s)) in
  set_sendDisabled (negb hasText || isTyping s) s.

Definition showTyping (s : state) : state :=
  updateSendButton (set_typingShown true (set_isTyping true s)).

Definition hideTyping (s : state) : state :=
  updateSendButton (set_typingShown false (set_isTyping false s)).

Definition showLoading (message : jsstring) (s : state) : state :=
  set_loadingShown true (set_loadingText message s).

Definition hideLoading (s : state) : state := set_loadingShown false s.

Definition hideErrorToast (s : state) : state := set_toastShown false s.

(** [showError] also arms a timer that hides the toast again. *)
Definition showError (message : toast_text) (s : state) : state :=
  set_toastTimers (S (toastTimers s))
    (set_toastShown true (set_toastText message s)).

Definition updateBotStatus (status : jsstring) (s : state) : state :=
  set_botStatus status s.

(** [error.message] *)
Definition message_of (e : js_error) : toast_text :=
  match e with
  | ErrorOf (JStr m) => Text m
  | _ => MessageOf e
  end.

(** [typeText] up to its first [await]: the text is emptied and the loop
    runs its pass at [i = 0]. *)
Definition typeText_start (text : jsstring) : jsstring * option type_task :=
  let ws := split text in
  match ws !! 0 with
  | Some w => (type_word 0 w [], Some {| words := ws; next_i := 1 |})
  | None => ([], None)
  end.

(** [typeText] from one [await] to the next: [i++], the test, a pass. *)
Definition typeText_resume (textContent : jsstring) (t : type_task)
  : jsstring * option type_task :=
  match words t !! next_i t with
  | Some w => (type_word (next_i t) w textContent,
               Some {| words := words t; next_i := S (next_i t) |})
  | None => (textContent, None)
  end.

(** [this.messageCount++] and [this.messagesContainer.appendChild]. *)
Definition appendMessage (el : element) (s : state) : state :=
  set_chatMessages (chatMessages s ++ [el])
    (set_messageCount (S (messageCount s)) s).

(** [addMessage(text, sender)] for a string [text]; [now] is what
    [formatTime(new Date())] gives at the call. *)
Definition addMessage (text : jsstring) (sender : sender) (now : jsstring)
    (s : state) : state :=
  match sender with
  | bot => let '(shown, task) := typeText_start text in
           appendMessage (MessageDiv bot shown now task) s
  | user => appendMessage (MessageDiv user text now None) s
  end.

(** [addMessage(text, 'bot')] for a [text] that is no string: [text.split]
    is no function, [typeText] rejects after it has emptied the element,
    and nobody awaits it. *)
Definition addMessage_unsplittable (now : jsstring) (s : state) : state :=
  appendMessage (MessageDiv bot [] now None) s.

Definition chat_request (message : jsstring) : request :=
  {| url := lit "/chat";
     method := lit "POST";
     content_type := lit "application/json";
     body := JObj [(lit "message", JStr message);
                   (lit "max_length", JNum 100);
                   (lit "temperature", JNum (7 # 10))] |}.

Definition fetch (r : request) (s : state) : state :=
  set_inflight (inflight s ++ [r]) s.

(** [sendMessage] up to [await fetch(...)]. *)
Definition sendMessage (now : jsstring) (s : state) : state :=
  let message := trim (inputValue s) in
  if bool_decide (message = []) || isTyping s then s
  else
    let s := addMessage message user now s in
    let s := set_inputValue [] s in
    let s := updateCharCount s in
    let s := updateSendButton s in
    let s := showTyping s in
    fetch (chat_request message) s.

(** The [try] block of [sendMessage] from the settled [fetch] to
    [await this.simulateTypingDelay(data.reply.length)]. *)
Definition chat_try (r : fetch_result) : completion delayed :=
  match r with
  | Rejected => Throw FetchRejected
  | Responded false body =>
      let* errorData := response_json body in
      let* detail := get (lit "detail") (Some errorData) in
      Throw (ErrorOf (if truthy detail
                      then default JNull detail
                      else JStr (lit "Failed to get response")))
  | Responded true body =>
      let* data := response_json body in
      let* reply := get (lit "reply") (Some data) in
      let* len := get (lit "length") reply in
      Normal {| reply := default JNull reply;
                timer := match len with
                         | Some (JNum textLength) =>
                             if (Qden textLength =? 1)%positive
                             then Some (simulateTypingDelay (Qnum textLength))
                             else None
                         | _ => None
                         end |}
  end.

Definition FALLBACK : jsstring :=
  lit "Sorry, I encountered an error. Please try again.".

(** The [catch] block of [sendMessage]. *)
Definition chat_catch (error : js_error) (now : jsstring) (s : state) : state :=
  let s := hideTyping s in
  let s := showError (message_of error) s in
  addMessage FALLBACK bot now s.

(** [sendMessage] from the settled [fetch] on: into the typing delay, or
    through [catch] to its end. *)
Definition sendMessage_settled (r : fetch_result) (now : jsstring) (s : state)
  : state :=
  match chat_try r with
  | Normal d => set_delaying (delaying s ++ [d]) s
  | Throw error => chat_catch error now s
  end.

(** [sendMessage] after the typing delay. *)
Definition sendMessage_delayed (d : delayed) (now : jsstring) (s : state) : state :=
  let s := hideTyping s in
  match reply d with
  | JStr text => addMessage text bot now s
  | _ => addMessage_unsplittable now s
  end.

(** [checkBackendHealth] up to [await fetch('/health')]. *)
Definition checkBackendHealth (s : state) : state :=
  set_healthPending true (showLoading (lit "Connecting to AI Assistant...") s).

(** The rest of its [try] block: whether [data.status === 'healthy']. *)
Definition health_try (r : fetch_result) : completion unit :=
  match r with
  | Rejected => Throw FetchRejected
  | Responded _ body =>
      let* data := response_json body in
      let* status := get (lit "status") (Some data) in
      match status with
      | Some (JStr st) =>
          if bool_decide (st = lit "healthy") then Normal tt
          else Throw (ErrorOf (JStr (lit "Backend not healthy")))
      | _ => Throw (ErrorOf (JStr (lit "Backend not healthy")))
      end
  end.

Definition checkBackendHealth_settled (r : fetch_result) (s : state) : state :=
  match health_try r with
  | Normal _ => updateBotStatus (lit "online") (hideLoading s)
  | Throw _ =>
      let s := hideLoading s in
      let s := updateBotStatus (lit "offline") s in
      showError
        (Text (lit "Failed to connect to AI Assistant. Please try again later."))
        s
  end.

(** [messagesContainer.querySelector('.welcome-message')] *)
Fixpoint query_welcome (el : element) : option element :=
  match el with
  | Markup welcome html inner =>
      if welcome then Some el
      else (fix among (l : list element) : option element :=
              match l with
              | [] => None
              | x :: rest =>
                  match query_welcome x with
                  | Some found => Some found
                  | None => among rest
                  end
              end) inner
  | MessageDiv _ _ _ _ => None
  end.

(** The first element below the container, in document order, that has
    the class: an element comes before the elements inside it, and these
    before the elements after it. *)
Fixpoint welcome_message (children : list element) : option element :=
  match children with
  | [] => None
  | x :: rest =>
      match query_welcome x with
      | Some found => Some found
      | None => welcome_message rest
      end
  end.

Definition CLEARED : jsstring := lit "Chat cleared! How can I help you?".

Definition clearChat (now : jsstring) (s : state) : state :=
  let welcomeMessage := welcome_message (chatMessages s) in
  let s := set_chatMessages [] s in
  let s := match welcomeMessage with
           | Some w => set_chatMessages (chatMessages s ++ [w]) s
           | None => s
           end in
  let s := set_messageCount 0 s in
  addMessage CLEARED bot now s.

Definition applyTheme (theme : jsstring) (s : state) : state :=
  set_themeIcon
    (if bool_decide (theme = lit "light") then lit "fas fa-moon"
     else lit "fas fa-sun")
    (set_dataTheme (Some theme) s).

Definition toggleTheme (s : state) : state :=
  let s := set_currentTheme
             (if bool_decide (currentTheme s = lit "light") then lit "dark"
              else lit "light") s in
  let s := applyTheme (currentTheme s) s in
  set_storedTheme (Some (currentTheme s)) s.

(** [localStorage.getItem('theme') || 'light'] *)
Definition initial_theme (stored : option jsstring) : jsstring :=
  match stored with
  | Some (c :: t) => c :: t
  | Some [] | None => lit "light"
  end.

(** [new ChatBot()] on a page just loaded: [page] gives the page and the
    storage as they are found; nothing of the session is pending in it. *)
Definition constructor (page : state) : state :=
  let s := set_isTyping false page in
  let s := set_messageCount 0 s in
  let s := set_currentTheme (initial_theme (storedTheme s)) s in
  let s := set_inflight [] (set_delaying [] s) in
  (* init: setupEventListeners arms one auto-hide timer *)
  let s := set_toastTimers 1 s in
  let s := checkBackendHealth s in
  applyTheme (currentTheme s) s.

(** ** The session as an event system

    Between two [await]s a handler runs alone. An event is a listener
    called by the user or a suspended piece of work resumed; [now] is the
    formatted time of the clock when the event runs. *)
Inductive event :=
  | Input (value : jsstring)      (* the textarea edited: its 'input' listener *)
  | Send (now : jsstring)         (* click on send, or Enter *)
  | ClearChat (now : jsstring)
  | ToggleTheme
  | CloseToast
  | ToastTimer
  | HealthSettled (r : fetch_result)
  | ChatSettled (k : nat) (r : fetch_result) (now : jsstring)
  | DelayElapsed (k : nat) (now : jsstring)
  | TypeTick (k : nat).

(** [step e s] is [None] when [e] cannot happen in [s]: no such request,
    timer or typing task is pending. *)
Definition step (e : event) (s : state) : option state :=
  match e with
  | Input value =>
      Some (updateSendButton (updateCharCount (set_inputValue value s)))
  | Send now => Some (sendMessage now s)
  | ClearChat now => Some (clearChat now s)
  | ToggleTheme => Some (toggleTheme s)
  | CloseToast => Some (hideErrorToast s)
  | ToastTimer =>
      match toastTimers s with
      | S n => Some (hideErrorToast (set_toastTimers n s))
      | O => None
      end
  | HealthSettled r =>
      if healthPending s
      then Some (checkBackendHealth_settled r (set_healthPending false s))
      else None
  | ChatSettled k r now =>
      match inflight s !! k with
      | Some _ => Some (sendMessage_settled r now (set_inflight (delete k (inflight s)) s))
      | None => None
      end
  | DelayElapsed k now =>
      match delaying s !! k with
      | Some d => Some (sendMessage_delayed d now (set_delaying (delete k (delaying s)) s))
      | None => None
      end
  | TypeTick k =>
      match chatMessages s !! k with
      | Some (MessageDiv from textContent time (Some task)) =>
          let '(textContent, task) := typeText_resume textContent task in
          Some (set_chatMessages
                  (<[k := MessageDiv from textContent time task]> (chatMessages s)) s)
      | _ => None
      end
  end.

(** The states of a session: those the events lead to from a fresh
    [ChatBot] on some page. *)
Inductive reachable (page : state) : state -> Prop :=
  | reachable_new : reachable page (constructor page)
  | reachable_step s e s' :
      reachable page s -> step e s = Some s' -> reachable page s'.

(** A run of events, stopping at the first that cannot happen. *)
Fixpoint run (es : list event) (s : state) : option state :=
  match es with
  | [] => Some s
  | e :: es' => match step e s with
                | Some s' => run es' s'
                | None => None
                end
  end.

(** * What the properties speak of *)

(** [words.join(' ')] *)
Definition join (ws : list jsstring) : jsstring :=
  match ws with
  | [] => []
  | w :: rest => w ++ concat (map (cons SPACE) rest)
  end.

(** A suspended [typeText] with the text it has written so far; resuming
    one that has returned does nothing. *)
Definition resume (st : jsstring * option type_task) : jsstring * option type_task :=
  match st with
  | (textContent, Some t) => typeText_resume textContent t
  | (textContent, None) => (textContent, None)
  end.

(** A message is what [addMessage] was called with: a sender, a text and a
    time. Of a bot message the element shows the words written so far and
    its task holds the rest. *)
Definition final_text (textContent : jsstring) (typing : option type_task) : jsstring :=
  match typing with
  | Some t => typeText_from (next_i t) (drop (next_i t) (words t)) textContent
  | None => textContent
  end.

(** The element with its typing task run to the end. *)
Definition settle (el : element) : element :=
  match el with
  | Markup w html inner => Markup w html inner
  | MessageDiv from textContent time typing =>
      MessageDiv from (final_text textContent typing) time None
  end.

(** The messages of the container, in its order. *)
Definition transcript (s : state) : list element := map settle (chatMessages s).

(** At most one [sendMessage] is between its guard and its [hideTyping],
    and [isTyping] is set for as long as it is. *)
Definition one_submit (s : state) : Prop :=
  length (inflight s) + length (delaying s) <= 1
  /\ (isTyping s = false -> inflight s = [] /\ delaying s = []).

(** A network error, or a response that is not [ok]. *)
Definition failed (r : fetch_result) : bool :=
  match r with
  | Rejected => true
  | Responded ok _ => negb ok
  end.

(** The payload of the response is an object whose [status] is the string
    'healthy'. *)
Definition healthy (r : fetch_result) : Prop :=
  exists ok members,
    r = Responded ok (Some (JObj members))
    /\ member (lit "status") members = Some (JStr (lit "healthy")).

(** What [clearChat] keeps of the container: a copy of its first welcome
    message, when it has one. *)
Definition kept (children : list element) : list element :=
  match welcome_message children with
  | Some w => [w]
  | None => []
  end.

(** The events of a submit that succeeds with [reply], run one after the
    other from [s]: the click, the response, the end of the typing delay,
    and the resumptions of [typeText]. *)
Definition submit_reply (s : state) (now : jsstring) (data : json)
    (reply : jsstring) (later : jsstring) : list event :=
  [Send now;
   ChatSettled (length (inflight s)) (Responded true (Some data)) later;
   DelayElapsed (length (delaying s)) later]
  ++ replicate (length (split reply)) (TypeTick (S (length (chatMessages s)))).

(** ** Sessions to run examples on *)

(** A page to run examples on (the markup of the page is not among the
    sources): one welcome message in the container, nothing shown, nothing
    stored. *)
Definition sample_page : state :=
  {| isTyping := false; messageCount := 0; currentTheme := [];
     inputValue := [];
     chatMessages := [Markup true (lit "Hello! How can I help you today?") []];
     sendDisabled := true; charCount := 0; counterAlert := None;
     typingShown := false; loadingShown := false; loadingText := [];
     toastShown := false; toastText := Text []; botStatus := [];
     dataTheme := None; themeIcon := [];
     storedTheme := None; healthPending := false; inflight := [];
     delaying := []; toastTimers := 0 |}.

(** The same page with the welcome message inside another element of the
    container. *)
Definition nested_page : state :=
  set_chatMessages
    [Markup false (lit "<div class=intro>")
       [Markup true (lit "Hello! How can I help you today?") []]]
    sample_page.

(** The session that typed "Hello", and the one that then sent it: its
    request is in flight. *)
Definition hello_typed : state :=
  updateSendButton (updateCharCount
    (set_inputValue (lit "Hello") (constructor sample_page))).

Definition hello_sent : state := sendMessage (lit "10:00") hello_typed.

(** The session that typed " Hi", with a space in front. *)
Definition padded_typed : state :=
  updateSendButton (updateCharCount
    (set_inputValue (lit " Hi") (constructor sample_page))).

(** * ChatUtils

    [debounce] and [throttle] return a closure over one variable and the
    timers it arms. The closure is a record of that variable and of the
    arguments [func] has been called with so far; an event is a call of the
    closure or a timer of it running out. A debounced closure calls [func]
    last of all, in its timer, so that the way [func] ends changes nothing
    of it; a throttled closure calls it first. *)

Section Utils.

Context {A : Type}.

Inductive util_event :=
  | Call (args : A)
  | Elapse.

(** [timeout] is the timer armed and not yet cleared or run, with the
    arguments its [later] has captured. *)
Record debounced := { timeout : option A; executed : list A }.

(** [executedFunction]: the timer of the call before is cleared and a new
    one armed. [later], when its timer runs out, calls [func]. *)
Definition debounce_step (e : util_event) (d : debounced) : option debounced :=
  match e with
  | Call args => Some {| timeout := Some args; executed := executed d |}
  | Elapse =>
      match timeout d with
      | Some args => Some {| timeout := None; executed := executed d ++ [args] |}
      | None => None
      end
  end.

(** [debounce(func, wait)] *)
Definition debounce : debounced := {| timeout := None; executed := [] |}.

(** A call of the throttled closure, or one of its timers running out.
    [returns] tells how [func] ends if this call runs it: by returning, or
    by throwing, which the closure passes on to its caller. [func] does
    not call the closure again. *)
Inductive throttle_event :=
  | Invoke (args : A) (returns : bool)
  | Reset.

(** [resets] counts the timers that will set [inThrottle] back; [applied]
    holds the arguments [func] was called with. *)
Record throttled := { inThrottle : bool; resets : nat; applied : list A }.

(** The closure: [inThrottle = true] and [setTimeout] come after
    [func.apply], and are not reached when that throws. *)
Definition throttle_step (e : throttle_event) (t : throttled) : option throttled :=
  match e with
  | Invoke args returns =>
      if inThrottle t then Some t
      else if returns
           then Some {| inThrottle := true; resets := S (resets t);
                        applied := applied t ++ [args] |}
           else Some {| inThrottle := false; resets := resets t;
                        applied := applied t ++ [args] |}
  | Reset =>
      match resets t with
      | S n => Some {| inThrottle := false; resets := n; applied := applied t |}
      | O => None
      end
  end.

(** [throttle(func, limit)] *)
Definition throttle : throttled :=
  {| inThrottle := false; resets := 0; applied := [] |}.

End Utils.

Arguments util_event A : clear implicits.
Arguments throttle_event A : clear implicits.
Arguments debounced A : clear implicits.
Arguments throttled A : clear implicits.

(** Events run one after the other, stopping at the first that cannot
    happen. *)
Fixpoint run_with {St Ev : Type} (step : Ev -> St -> option St) (es : list Ev)
    (s : St) : option St :=
  match es with
  | [] => Some s
  | e :: es' => match step e s with
                | Some s' => run_with step es' s'
                | None => None
                end
  end.

(** How the serialisation of a text node writes a code unit. *)
Definition escape (c : N) : jsstring :=
  if (c =? 38)%N then lit "&amp;"
  else if (c =? 60)%N then lit "&lt;"
  else if (c =? 62)%N then lit "&gt;"
  else if (c =? 160)%N then lit "&nbsp;"
  else [c].

(** [sanitizeHTML]: [str] becomes the text of a fresh [div], whose
    [innerHTML] is read back. *)
Definition sanitizeHTML (str : jsstring) : jsstring := concat (map escape str).

(** * More of what the properties speak of *)

(** The widgets show what the fields and the textarea hold. *)
Definition in_sync (s : state) : Prop :=
  typingShown s = isTyping s
  /\ sendDisabled s = negb (0 <? length (trim (inputValue s))) || isTyping s
  /\ charCount s = length (inputValue s).

(** The calls of [sendMessage] past their guard and not yet at their
    [hideTyping]. *)
Definition pending_submits (s : state) : nat :=
  length (inflight s) + length (delaying s).

Definition is_message (el : element) : bool :=
  match el with
  | MessageDiv _ _ _ _ => true
  | Markup _ _ _ => false
  end.

(** The messages [addMessage] has put into the container. *)
Definition built (children : list element) : nat :=
  length (filter (fun el => is_message el = true) children).

Definition is_clear (e : event) : bool :=
  match e with
  | ClearChat _ => true
  | _ => false
  end.

Definition is_health (e : event) : bool :=
  match e with
  | HealthSettled _ => true
  | _ => false
  end.

(** The class [applyTheme] gives the icon. *)
Definition icon_of (theme : jsstring) : jsstring :=
  if bool_decide (theme = lit "light") then lit "fas fa-moon" else lit "fas fa-sun".

(** The same session on [nested_page]. *)
Definition nested_answered : state :=
  sendMessage_settled
    (Responded true (Some (JObj [(lit "reply", JStr (lit "Hi there"))])))
    (lit "10:01")
    (set_inflight []
       (sendMessage (lit "10:00")
          (updateSendButton (updateCharCount
             (set_inputValue (lit "Hello") (constructor nested_page)))))).

(** The arguments of the calls among [es], and the number of timers that
    ran out. *)
Definition calls_of {A : Type} (es : list (util_event A)) : list A :=
  flat_map (fun e => match e with Call args => [args] | Elapse => [] end) es.

Fixpoint elapses {A : Type} (es : list (util_event A)) : nat :=
  match es with
  | [] => 0
  | Elapse :: es' => S (elapses es')
  | Call _ :: es' => elapses es'
  end.




(** Calls with their arguments and the way [func] would end. *)
Definition invokes {A : Type} (calls : list (A * bool)) : list (throttle_event A) :=
  map (fun c => Invoke (fst c) (snd c)) calls.

(** The code units [escape] rewrites. *)
Definition is_special (c : N) : bool :=
  ((c =? 38) || (c =? 60) || (c =? 62) || (c =? 160))%N.

(** The session of [hello_sent] after its health check was rejected, and
    after a [clearChat] and a [toggleTheme] more. *)
Definition hello_offline : state :=
  checkBackendHealth_settled Rejected (set_healthPending false hello_sent).

Definition hello_offline_cleared : state :=
  toggleTheme (clearChat (lit "10:03") hello_offline).

(** The session of [hello_sent] once its request was answered with the
    reply "Hi there": its typing delay runs. *)
Definition hello_answered : state :=
  sendMessage_settled
    (Responded true (Some (JObj [(lit "reply", JStr (lit "Hi there"))])))
    (lit "10:01") (set_inflight [] hello_sent).

(** * Proofs *)

Ltac handlers :=
  unfold sendMessage_settled, sendMessage_delayed, chat_catch,
    checkBackendHealth_settled, clearChat, toggleTheme, applyTheme,
    addMessage_unsplittable, addMessage, appendMessage, fetch,
    showError, hideErrorToast, hideLoading, showLoading, updateBotStatus,
    showTyping, hideTyping, updateSendButton, updateCharCount in *.

Ltac crush_state :=
  handlers;
  repeat match goal with
         | |- context [typeText_start ?t] => destruct (typeText_start t)
         | |- context [typeText_resume ?c ?t] => destruct (typeText_resume c t)
         | |- context [match ?x with _ => _ end] => destruct x
         end;
  cbn in *.

(** ** Splitting and typing *)

Lemma split_not_nil s : split s <> [].
Proof.
  destruct s as [|c s]; simpl; [discriminate|].
  destruct (c =? SPACE)%N; [discriminate|].
  destruct (split s); discriminate.
Qed.

Lemma join_split s : join (split s) = s.
Proof.
  induction s as [|c s IH]; [reflexivity|].
  simpl split. destruct (N.eqb_spec c SPACE) as [->|_].
  - simpl. destruct (split s) as [|w ws] eqn:E.
    + now destruct (split_not_nil s).
    + simpl in *. now rewrite IH.
  - destruct (split s) as [|w ws] eqn:E.
    + now destruct (split_not_nil s).
    + simpl in *. now rewrite IH.
Qed.

Lemma typeText_from_later i ws textContent :
  typeText_from (S i) ws textContent = textContent ++ concat (map (cons SPACE) ws).
Proof.
  revert i textContent.
  induction ws as [|w ws IH]; intros i textContent; simpl.
  - now rewrite app_nil_r.
  - rewrite IH. unfold type_word. simpl. now rewrite <- app_assoc.
Qed.

Lemma typeText_from_join ws : typeText_from 0 ws [] = join ws.
Proof.
  destruct ws as [|w ws]; [reflexivity|].
  simpl. now rewrite typeText_from_later.
Qed.

Lemma typeText_id text : typeText text = text.
Proof. unfold typeText. now rewrite typeText_from_join, join_split. Qed.

Lemma resume_to_end n ws i textContent :
  n = length ws - i ->
  Nat.iter (S n) resume (textContent, Some {| words := ws; next_i := i |})
  = (typeText_from i (drop i ws) textContent, None).
Proof.
  revert i textContent.
  induction n as [|n IH]; intros i textContent Hn.
  - simpl. unfold typeText_resume. simpl.
    rewrite (lookup_ge_None_2 ws i) by lia.
    rewrite drop_ge by lia. reflexivity.
  - rewrite Nat.iter_succ_r.
    assert (Hi : i < length ws) by lia.
    destruct (lookup_lt_is_Some_2 ws i Hi) as [w Hw].
    replace (resume (textContent, Some {| words := ws; next_i := i |}))
      with (type_word i w textContent, Some {| words := ws; next_i := S i |})
      by (simpl; unfold typeText_resume; simpl; now rewrite Hw).
    rewrite (IH (S i)) by lia.
    rewrite (drop_S ws w i Hw). reflexivity.
Qed.

(** ** C8, C9: the typing delay and the typing animation *)

(** C8. For a reply of length n >= 0 the delay before the bot message is
    1000 ms plus 30 ms per character for as long as that stays under the
    cap of 2000 ms: it never decreases when n grows, and it never exceeds
    3000 ms, whatever n. *)
Theorem simulateTypingDelay_monotone_bounded (n m : Z) :
  (0 <= n <= m)%Z ->
  (simulateTypingDelay n <= simulateTypingDelay m)%Z
  /\ (1000 <= simulateTypingDelay n <= 3000)%Z
  /\ (n * 30 <= 2000 -> simulateTypingDelay n - 1000 = 30 * n)%Z.
Proof.
  unfold simulateTypingDelay. cbv zeta. lia.
Qed.

Lemma simulateTypingDelay_monotone_bounded_witness :
  (simulateTypingDelay 8 <= simulateTypingDelay 500)%Z
  /\ (1000 <= simulateTypingDelay 8 <= 3000)%Z
  /\ (8 * 30 <= 2000 -> simulateTypingDelay 8 - 1000 = 30 * 8)%Z.
Proof.
  apply (simulateTypingDelay_monotone_bounded 8 500). lia.
Defined.

(** C9. For every string text, [typeText] comes to its end with the text of
    the element equal to text: the pieces of [text.split(' ')], empty ones
    included, put together again with single spaces are text. The task
    started by [addMessage] has returned after as many resumptions as
    there are pieces. *)
Theorem typeText_writes_text (text : jsstring) :
  typeText text = text
  /\ join (split text) = text
  /\ Nat.iter (length (split text)) resume (typeText_start text) = (text, None).
Proof.
  split; [apply typeText_id|]. split; [apply join_split|].
  pose proof (typeText_id text) as H1.
  unfold typeText_start, typeText in *.
  destruct (split text) as [|w ws] eqn:E.
  - now destruct (split_not_nil text).
  - cbn [lookup list_lookup length].
    rewrite (resume_to_end (length ws) (w :: ws) 1 (type_word 0 w [])).
    + simpl drop. rewrite drop_0. simpl in H1. now rewrite H1.
    + simpl. lia.
Qed.

(** ** What the handlers leave alone *)

Lemma one_submit_constructor page : one_submit (constructor page).
Proof. unfold one_submit. cbn. split; [lia|tauto]. Qed.

Lemma one_submit_step e s s' : one_submit s -> step e s = Some s' -> one_submit s'.
Proof.
  unfold one_submit. intros [Hlen Hidle] Hstep.
  destruct e; cbn [step] in Hstep.
  - injection Hstep as <-. cbn. auto.
  - injection Hstep as <-. unfold sendMessage.
    destruct (bool_decide (trim (inputValue s) = [])); cbn [orb]; [auto|].
    destruct (isTyping s) eqn:Ht; [split; [exact Hlen|congruence]|].
    destruct (Hidle eq_refl) as [Hi Hd]. cbn. rewrite Hi, Hd.
    split; [simpl; lia|discriminate].
  - injection Hstep as <-. crush_state; auto.
  - injection Hstep as <-. cbn. auto.
  - injection Hstep as <-. cbn. auto.
  - destruct (toastTimers s); [discriminate|]. injection Hstep as <-. cbn. auto.
  - destruct (healthPending s); [|discriminate]. injection Hstep as <-.
    unfold checkBackendHealth_settled. destruct (health_try r); cbn; auto.
  - destruct (inflight s !! k) eqn:Hk; [|discriminate]. injection Hstep as <-.
    destruct (inflight s) as [|q [|q' qs]] eqn:Hin; [destruct k; discriminate| |simpl in Hlen; lia].
    destruct (delaying s) as [|d ds] eqn:Hd; [|simpl in Hlen; lia].
    destruct k as [|k]; [|destruct k; discriminate].
    unfold sendMessage_settled. destruct (chat_try r).
    + cbn. rewrite Hd. split; [simpl; lia|].
      intros Ht. destruct (Hidle Ht). discriminate.
    + crush_state; rewrite ?Hd; cbn; split; try lia; auto.
  - destruct (delaying s !! k) eqn:Hk; [|discriminate]. injection Hstep as <-.
    destruct (delaying s) as [|d' [|d'' ds]] eqn:Hd; [destruct k; discriminate| |simpl in Hlen; lia].
    destruct (inflight s) as [|q qs] eqn:Hin; [|simpl in Hlen; lia].
    destruct k as [|k]; [|destruct k; discriminate].
    crush_state; rewrite ?Hin; cbn; split; try lia; auto.
  - destruct (chatMessages s !! k) as [[|f tc tm [t|]]|]; try discriminate.
    destruct (typeText_resume tc t). injection Hstep as <-. cbn. auto.
Qed.

Lemma reachable_one_submit page s : reachable page s -> one_submit s.
Proof.
  induction 1 as [|s e s' _ IH Hstep].
  - apply one_submit_constructor.
  - exact (one_submit_step e s s' IH Hstep).
Qed.

(** ** The transcript under typing *)

Lemma final_text_resume textContent t :
  final_text (fst (typeText_resume textContent t)) (snd (typeText_resume textContent t))
  = final_text textContent (Some t).
Proof.
  unfold typeText_resume, final_text.
  destruct (words t !! next_i t) as [w|] eqn:Hw; simpl.
  - now rewrite (drop_S _ _ _ Hw).
  - apply lookup_ge_None_1 in Hw. now rewrite drop_ge.
Qed.

Lemma final_text_start text :
  final_text (fst (typeText_start text)) (snd (typeText_start text)) = text.
Proof.
  pose proof (typeText_id text) as H. unfold typeText in H.
  unfold typeText_start.
  destruct (split text) as [|w ws] eqn:E.
  - now destruct (split_not_nil text).
  - simpl. rewrite drop_0. exact H.
Qed.

Lemma transcript_addMessage_bot text now s :
  transcript (addMessage text bot now s)
  = transcript s ++ [MessageDiv bot text now None].
Proof.
  unfold transcript, addMessage.
  pose proof (final_text_start text) as H.
  destruct (typeText_start text) as [shown task]. simpl in H.
  cbn. rewrite map_app. simpl. now rewrite H.
Qed.

Lemma transcript_addMessage_user text now s :
  transcript (addMessage text user now s)
  = transcript s ++ [MessageDiv user text now None].
Proof. unfold transcript. cbn. now rewrite map_app. Qed.

(** ** C2: the guard of sendMessage *)

Lemma sendMessage_ignored now s :
  trim (inputValue s) = [] \/ isTyping s = true -> sendMessage now s = s.
Proof.
  unfold sendMessage. intros [H|H]; rewrite H.
  - reflexivity.
  - now rewrite orb_true_r.
Qed.

(** C2. In every state of a session, [sendMessage] with an input whose trim
    is empty, or while [isTyping] is set, returns the state as it is: no
    message, no request, nothing else. A request in flight keeps [isTyping]
    set, so at most one chat request is in flight at any time. *)
Theorem sendMessage_guard (page s : state) (now : jsstring) :
  reachable page s ->
  (trim (inputValue s) = [] \/ isTyping s = true ->
   step (Send now) s = Some s)
  /\ (inflight s <> [] -> isTyping s = true)
  /\ length (inflight s) <= 1.
Proof.
  intros Hr. destruct (reachable_one_submit page s Hr) as [Hlen Hidle].
  split; [|split].
  - intros H. cbn [step]. now rewrite sendMessage_ignored.
  - intros Hne. destruct (isTyping s); [reflexivity|].
    now destruct (Hidle eq_refl).
  - lia.
Qed.

Lemma sendMessage_guard_witness :
  step (Send (lit "10:02")) hello_sent = Some hello_sent
  /\ isTyping hello_sent = true
  /\ length (inflight hello_sent) <= 1.
Proof.
  assert (Hr : reachable sample_page hello_sent).
  { apply (reachable_step _ hello_typed (Send (lit "10:00"))).
    - apply (reachable_step _ (constructor sample_page) (Input (lit "Hello"))).
      + apply reachable_new.
      + vm_compute. reflexivity.
    - vm_compute. reflexivity. }
  destruct (sendMessage_guard sample_page hello_sent (lit "10:02") Hr)
    as (H1 & H2 & H3).
  split; [apply H1; right; vm_compute; reflexivity|].
  split; [apply H2; vm_compute; discriminate|exact H3].
Defined.

(** ** C1: a chat call that fails *)

Lemma chat_try_failed r : failed r = true -> exists error, chat_try r = Throw error.
Proof.
  destruct r as [|[|] body]; simpl; intros H; try discriminate.
  - eauto.
  - destruct body as [data|]; simpl; [|eauto].
    destruct data; simpl; eauto.
Qed.

Lemma hideTyping_last_catch error now s :
  chat_catch error now s
  = hideTyping (addMessage FALLBACK bot now (showError (message_of error) s)).
Proof.
  unfold chat_catch, addMessage. destruct (typeText_start FALLBACK).
  cbn. reflexivity.
Qed.

Lemma hideTyping_last_delayed d now s :
  sendMessage_delayed d now s
  = hideTyping (match reply d with
                | JStr text => addMessage text bot now s
                | _ => addMessage_unsplittable now s
                end).
Proof.
  unfold sendMessage_delayed. destruct (reply d) as [| | |text| |];
    try (cbn; reflexivity).
  unfold addMessage. destruct (typeText_start text). cbn. reflexivity.
Qed.

Lemma transcript_hideTyping s : transcript (hideTyping s) = transcript s.
Proof. reflexivity. Qed.

(** C1. When the [fetch] of a [sendMessage] is rejected or answers with a
    response that is not ok, the exception reaches the [catch] block and
    the call ends normally: the fallback bot message is appended, the toast
    is shown, and [isTyping] is false. Whenever the typing delay of a call
    that succeeded ends, [isTyping] is false as well. In both outcomes the
    state is the one [hideTyping] gives when it runs last. *)
Theorem sendMessage_failure_recovers (s : state) (now : jsstring) :
  (forall k r,
      is_Some (inflight s !! k) ->
      failed r = true ->
      exists error s',
        chat_try r = Throw error
        /\ step (ChatSettled k r now) s = Some s'
        /\ transcript s' = transcript s ++ [MessageDiv bot FALLBACK now None]
        /\ toastShown s' = true
        /\ toastText s' = message_of error
        /\ isTyping s' = false
        /\ s' = hideTyping
                  (addMessage FALLBACK bot now
                     (showError (message_of error)
                        (set_inflight (delete k (inflight s)) s))))
  /\ (forall j d,
        delaying s !! j = Some d ->
        exists s',
          step (DelayElapsed j now) s = Some s'
          /\ isTyping s' = false
          /\ s' = hideTyping
                    (match reply d with
                     | JStr text => addMessage text bot now
                     | _ => addMessage_unsplittable now
                     end (set_delaying (delete j (delaying s)) s))).
Proof.
  split.
  - intros k r [q Hq] Hf.
    destruct (chat_try_failed r Hf) as [error He].
    exists error. eexists. split; [exact He|].
    cbn [step]. rewrite Hq. unfold sendMessage_settled. rewrite He.
    split; [reflexivity|]. rewrite hideTyping_last_catch.
    split; [|repeat split].
    rewrite transcript_hideTyping, transcript_addMessage_bot. reflexivity.
  - intros j d Hd. eexists. cbn [step]. rewrite Hd.
    split; [reflexivity|]. rewrite hideTyping_last_delayed.
    split; [reflexivity|]. now destruct (reply d).
Qed.

Lemma sendMessage_failure_recovers_witness :
  (exists s',
      step (ChatSettled 0 Rejected (lit "10:01")) hello_sent = Some s'
      /\ transcript s' = transcript hello_sent ++ [MessageDiv bot FALLBACK (lit "10:01") None]
      /\ toastShown s' = true
      /\ isTyping s' = false)
  /\ (isTyping hello_answered = true
      /\ exists s',
           step (DelayElapsed 0 (lit "10:01")) hello_answered = Some s'
           /\ isTyping s' = false).
Proof.
  split.
  - destruct (sendMessage_failure_recovers hello_sent (lit "10:01")) as [H _].
    destruct (H 0 Rejected) as (error & s' & _ & H1 & H2 & H3 & _ & H4 & _).
    + eexists. vm_compute. reflexivity.
    + reflexivity.
    + exists s'. auto.
  - split; [vm_compute; reflexivity|].
    destruct (sendMessage_failure_recovers hello_answered (lit "10:01")) as [_ H].
    destruct (H 0 {| reply := JStr (lit "Hi there"); timer := Some 1240%Z |})
      as (s' & H1 & H2 & _).
    + vm_compute. reflexivity.
    + exists s'. auto.
Defined.

(** ** C3: a message that is accepted *)

Lemma sendMessage_accepts now s :
  trim (inputValue s) <> [] -> isTyping s = false ->
  sendMessage now s
  = fetch (chat_request (trim (inputValue s)))
      (showTyping (updateSendButton (updateCharCount
         (set_inputValue [] (addMessage (trim (inputValue s)) user now s))))).
Proof.
  intros Hne Ht. unfold sendMessage.
  rewrite bool_decide_eq_false_2 by exact Hne. now rewrite Ht.
Qed.

Lemma set_chatMessages_twice a b s :
  set_chatMessages a (set_chatMessages b s) = set_chatMessages a s.
Proof. reflexivity. Qed.

Lemma chat_try_reply members answer :
  member (lit "reply") members = Some (JStr answer) ->
  chat_try (Responded true (Some (JObj members)))
  = Normal {| reply := JStr answer;
              timer := Some (simulateTypingDelay (Z.of_nat (length answer))) |}.
Proof. intros H. unfold chat_try. simpl. rewrite H. reflexivity. Qed.

(** The element whose task is at index [i] of [ws], last in the container:
    resumed until it returns, the task has written the words left. *)
Lemma ticks_to_end n : forall s before from textContent time ws i,
  chatMessages s
  = before ++ [MessageDiv from textContent time (Some {| words := ws; next_i := i |})] ->
  n = length ws - i ->
  run (replicate (S n) (TypeTick (length before))) s
  = Some (set_chatMessages
            (before ++ [MessageDiv from (typeText_from i (drop i ws) textContent) time None])
            s).
Proof.
  induction n as [|n IH]; intros s before from textContent time ws i Hs Hn.
  - cbn [replicate run step]. rewrite Hs, list_lookup_middle by reflexivity.
    unfold typeText_resume. cbn [words next_i].
    rewrite (lookup_ge_None_2 ws i) by lia.
    rewrite drop_ge by lia. cbn [typeText_from].
    rewrite insert_app_r_alt, Nat.sub_diag by lia. reflexivity.
  - assert (Hi : i < length ws) by lia.
    destruct (lookup_lt_is_Some_2 ws i Hi) as [w Hw].
    change (replicate (S (S n)) ?e) with (e :: replicate (S n) e).
    cbn [run step]. rewrite Hs, list_lookup_middle by reflexivity.
    unfold typeText_resume. cbn [words next_i]. rewrite Hw.
    rewrite insert_app_r_alt, Nat.sub_diag by lia. cbn [insert list_insert].
    erewrite IH; [|reflexivity|lia].
    rewrite set_chatMessages_twice, (drop_S ws w i Hw). reflexivity.
Qed.

(** C3, as the code has it. A text whose trim is not empty, sent while
    [isTyping] is false, appends a user message carrying the trimmed text,
    empties the input, sets [isTyping], and issues one POST to /chat whose
    body holds the trimmed text, max_length 100 and temperature 0.7. When
    the response is ok with the string [reply] as its reply, the container
    gains, after the typing delay and the animation, a bot message with
    that text, and [isTyping] is false again. *)
Theorem sendMessage_accepted (s : state) (now : jsstring) (members : list (jsstring * json))
    (answer later : jsstring) :
  trim (inputValue s) <> [] ->
  isTyping s = false ->
  member (lit "reply") members = Some (JStr answer) ->
  let message := trim (inputValue s) in
  let s1 := sendMessage now s in
  step (Send now) s = Some s1
  /\ chatMessages s1 = chatMessages s ++ [MessageDiv user message now None]
  /\ inputValue s1 = []
  /\ isTyping s1 = true
  /\ inflight s1
     = inflight s
       ++ [{| url := lit "/chat"; method := lit "POST";
              content_type := lit "application/json";
              body := JObj [(lit "message", JStr message);
                            (lit "max_length", JNum 100);
                            (lit "temperature", JNum (7 # 10))] |}]
  /\ exists s4,
      run (submit_reply s now (JObj members) answer later) s = Some s4
      /\ chatMessages s4
         = chatMessages s ++ [MessageDiv user message now None;
                              MessageDiv bot answer later None]
      /\ isTyping s4 = false
      /\ inflight s4 = inflight s.
Proof.
  intros Hne Ht Hreply message s1.
  assert (Hs1 : s1 = fetch (chat_request message)
      (showTyping (updateSendButton (updateCharCount
         (set_inputValue [] (addMessage message user now s)))))).
  { apply sendMessage_accepts; assumption. }
  split; [reflexivity|].
  split; [rewrite Hs1; reflexivity|].
  split; [rewrite Hs1; reflexivity|].
  split; [rewrite Hs1; reflexivity|].
  split; [rewrite Hs1; reflexivity|].
  assert (Hin : inflight s1 = inflight s ++ [chat_request message])
    by (rewrite Hs1; reflexivity).
  assert (Hd : delaying s1 = delaying s) by (rewrite Hs1; reflexivity).
  assert (Hm : chatMessages s1 = chatMessages s ++ [MessageDiv user message now None])
    by (rewrite Hs1; reflexivity).
  pose proof (typeText_id answer) as Hid. unfold typeText in Hid.
  destruct (split answer) as [|w ws] eqn:E; [now destruct (split_not_nil answer)|].
  cbn [typeText_from] in Hid.
  set (s3 := sendMessage_delayed
               {| reply := JStr answer;
                  timer := Some (simulateTypingDelay (Z.of_nat (length answer))) |}
               later
               (set_delaying (delaying s) (set_inflight (inflight s) s1))).
  assert (H3 : chatMessages s3
               = (chatMessages s ++ [MessageDiv user message now None])
                 ++ [MessageDiv bot (type_word 0 w []) later
                       (Some {| words := w :: ws; next_i := 1 |})]).
  { subst s3. unfold sendMessage_delayed, addMessage, typeText_start.
    cbn [reply]. rewrite E. cbn. now rewrite Hm. }
  assert (Hrun := ticks_to_end (length ws) s3 _ _ _ _ _ _ H3
                    ltac:(simpl; lia)).
  rewrite length_app, Nat.add_comm in Hrun.
  cbn [length Nat.add drop] in Hrun. rewrite drop_0, Hid in Hrun.
  eexists. split; [|split; [|split]].
  - unfold submit_reply. rewrite E. cbn [app run step]. fold s1.
    rewrite Hin, list_lookup_middle by reflexivity.
    unfold sendMessage_settled. rewrite (chat_try_reply _ _ Hreply).
    cbn [step].
    change (delaying (set_delaying ?a ?b)) with a.
    change (delaying (set_inflight ?a ?b)) with (delaying b).
    rewrite Hd, list_lookup_middle by reflexivity.
    rewrite !delete_middle, !app_nil_r.
    change (set_delaying (delaying s) (set_delaying _ ?b))
      with (set_delaying (delaying s) b).
    fold s3. exact Hrun.
  - cbn. now rewrite <- app_assoc.
  - subst s3. unfold sendMessage_delayed, addMessage. cbn [reply].
    destruct (typeText_start answer). reflexivity.
  - subst s3. unfold sendMessage_delayed, addMessage. cbn [reply].
    destruct (typeText_start answer). reflexivity.
Qed.

Lemma sendMessage_accepted_witness :
  exists s4,
    run (submit_reply hello_typed (lit "10:00")
           (JObj [(lit "reply", JStr (lit "Hi there"))]) (lit "Hi there") (lit "10:01"))
        hello_typed = Some s4
    /\ chatMessages s4
       = chatMessages hello_typed
         ++ [MessageDiv user (lit "Hello") (lit "10:00") None;
             MessageDiv bot (lit "Hi there") (lit "10:01") None]
    /\ isTyping s4 = false.
Proof.
  destruct (sendMessage_accepted hello_typed (lit "10:00")
              [(lit "reply", JStr (lit "Hi there"))] (lit "Hi there") (lit "10:01"))
    as (_ & _ & _ & _ & _ & s4 & H1 & H2 & H3 & _).
  - vm_compute. discriminate.
  - vm_compute. reflexivity.
  - vm_compute. reflexivity.
  - exists s4. split; [exact H1|]. split; [|exact H3].
    rewrite H2. vm_compute. reflexivity.
Defined.

(** C3 as stated fails: the text " Hi" is accepted, and the user message
    appended carries "Hi"; no message of the container carries " Hi". *)
Lemma sendMessage_text_counterexample :
  trim (inputValue padded_typed) <> []
  /\ isTyping padded_typed = false
  /\ chatMessages (sendMessage (lit "10:00") padded_typed)
     = chatMessages padded_typed
       ++ [MessageDiv user (lit "Hi") (lit "10:00") None]
  /\ ~ (exists time typing,
          In (MessageDiv user (inputValue padded_typed) time typing)
             (chatMessages (sendMessage (lit "10:00") padded_typed))).
Proof.
  split; [vm_compute; discriminate|].
  split; [vm_compute; reflexivity|].
  split; [vm_compute; reflexivity|].
  intros (time & typing & H). vm_compute in H.
  destruct H as [H|[H|[]]]; discriminate.
Qed.

(** ** C4, C10: the health check *)

Lemma health_try_healthy r : health_try r = Normal tt <-> healthy r.
Proof.
  split.
  - destruct r as [|ok [data|]]; try discriminate.
    destruct data as [| | | | |members]; try discriminate. simpl.
    destruct (member (lit "status") members) as [[| | |st| |]|] eqn:Hm;
      try discriminate.
    destruct (bool_decide (st = lit "healthy")) eqn:Hst; [|discriminate].
    apply bool_decide_eq_true_1 in Hst. subst st.
    intros _. exists ok, members. auto.
  - intros (ok & members & -> & Hm). simpl. rewrite Hm. reflexivity.
Qed.

Lemma health_try_cases r :
  health_try r = Normal tt \/ exists error, health_try r = Throw error.
Proof. destruct (health_try r) as [[]|e]; eauto. Qed.

(** C4. When the health check settles, the status is 'online' exactly when
    the payload is an object whose status is 'healthy'; on every other
    outcome (no response, a body that is not JSON, any other payload) the
    status is 'offline' and the toast is shown with the connection
    message. *)
Theorem checkBackendHealth_status (s : state) (r : fetch_result) :
  healthPending s = true ->
  exists s',
    step (HealthSettled r) s = Some s'
    /\ (botStatus s' = lit "online" <-> healthy r)
    /\ (~ healthy r ->
        botStatus s' = lit "offline"
        /\ toastShown s' = true
        /\ toastText s'
           = Text (lit "Failed to connect to AI Assistant. Please try again later.")).
Proof.
  intros Hp. cbn [step]. rewrite Hp. eexists. split; [reflexivity|].
  unfold checkBackendHealth_settled.
  destruct (health_try_cases r) as [H|[error H]]; rewrite H.
  - apply health_try_healthy in H. split; [tauto|]. intros Hn. now destruct Hn.
  - assert (Hn : ~ healthy r).
    { intros Hh. apply health_try_healthy in Hh. congruence. }
    split; [|intros _; repeat split].
    split; [|tauto]. cbn. intros Heq. vm_compute in Heq. discriminate.
Qed.

Lemma checkBackendHealth_status_witness :
  exists s',
    step (HealthSettled (Responded true (Some (JObj [(lit "status", JStr (lit "down"))]))))
         (constructor sample_page) = Some s'
    /\ botStatus s' = lit "offline"
    /\ toastShown s' = true.
Proof.
  destruct (checkBackendHealth_status (constructor sample_page)
              (Responded true (Some (JObj [(lit "status", JStr (lit "down"))]))))
    as (s' & H1 & _ & H3).
  - vm_compute. reflexivity.
  - exists s'. split; [exact H1|].
    destruct H3 as (H3 & H4 & _).
    + intros (ok & members & Heq & Hm). injection Heq as _ <-.
      vm_compute in Hm. discriminate.
    + auto.
Defined.

Lemma health_try_status ok ok' members members' :
  member (lit "status") members' = member (lit "status") members ->
  health_try (Responded ok' (Some (JObj members')))
  = health_try (Responded ok (Some (JObj members))).
Proof.
  intros H. unfold health_try. cbn [response_json bind get]. now rewrite H.
Qed.

(** C10. The outcome of the health check does not depend on [response.ok]
    and, for a body that is an object, depends on the body through its
    [status] member only: a response that is not ok and whose body is an
    object with status 'healthy' sets the status 'online' and leaves the
    toast as it was, and a response, ok or not, whose body is an object
    with any other status, or none, sets 'offline' and shows the toast. *)
Theorem checkBackendHealth_ignores_ok (s : state) (ok ok' : bool)
    (body : option json) (members : list (jsstring * json)) :
  checkBackendHealth_settled (Responded ok body) s
  = checkBackendHealth_settled (Responded ok' body) s
  /\ (healthPending s = true ->
      member (lit "status") members = Some (JStr (lit "healthy")) ->
      exists s',
        step (HealthSettled (Responded false (Some (JObj members)))) s = Some s'
        /\ botStatus s' = lit "online"
        /\ toastShown s' = toastShown s
        /\ toastText s' = toastText s
        /\ toastTimers s' = toastTimers s)
  /\ (forall members',
        member (lit "status") members' = member (lit "status") members ->
        checkBackendHealth_settled (Responded ok' (Some (JObj members'))) s
        = checkBackendHealth_settled (Responded ok (Some (JObj members))) s)
  /\ (healthPending s = true ->
      member (lit "status") members <> Some (JStr (lit "healthy")) ->
      exists s',
        step (HealthSettled (Responded ok (Some (JObj members)))) s = Some s'
        /\ botStatus s' = lit "offline"
        /\ toastShown s' = true
        /\ toastText s'
           = Text (lit "Failed to connect to AI Assistant. Please try again later.")).
Proof.
  split; [reflexivity|]. split; [|split].
  - intros Hp Hm.
    cbn [step]. rewrite Hp. eexists. split; [reflexivity|].
    unfold checkBackendHealth_settled.
    replace (health_try (Responded false (Some (JObj members)))) with (Normal tt).
    + repeat split.
    + symmetry. apply health_try_healthy. exists false, members. auto.
  - intros members' Hm. unfold checkBackendHealth_settled.
    now rewrite (health_try_status ok ok' members members' Hm).
  - intros Hp Hm. cbn [step]. rewrite Hp. eexists. split; [reflexivity|].
    unfold checkBackendHealth_settled.
    destruct (health_try_cases (Responded ok (Some (JObj members)))) as [H|[error H]].
    + apply health_try_healthy in H as (ok0 & members0 & Heq & Hh).
      injection Heq as _ <-. contradiction.
    + rewrite H. repeat split.
Qed.

Lemma checkBackendHealth_ignores_ok_witness :
  (exists s',
      step (HealthSettled
              (Responded false (Some (JObj [(lit "status", JStr (lit "healthy"))]))))
           (constructor sample_page) = Some s'
      /\ botStatus s' = lit "online"
      /\ toastShown s' = false)
  /\ (exists s',
        step (HealthSettled
                (Responded true (Some (JObj [(lit "status", JStr (lit "starting"))]))))
             (constructor sample_page) = Some s'
        /\ botStatus s' = lit "offline"
        /\ toastShown s' = true).
Proof.
  split.
  - destruct (checkBackendHealth_ignores_ok (constructor sample_page) false true
                None [(lit "status", JStr (lit "healthy"))]) as (_ & H & _).
    destruct H as (s' & H1 & H2 & H3 & _).
    + vm_compute. reflexivity.
    + vm_compute. reflexivity.
    + exists s'. split; [exact H1|]. split; [exact H2|].
      rewrite H3. vm_compute. reflexivity.
  - destruct (checkBackendHealth_ignores_ok (constructor sample_page) true false
                None [(lit "status", JStr (lit "starting"))]) as (_ & _ & _ & H).
    destruct H as (s' & H1 & H2 & H3 & _).
    + vm_compute. reflexivity.
    + vm_compute. discriminate.
    + exists s'. auto.
Defined.

(** ** C5: clearChat *)

Lemma clearChat_chatMessages now s :
  chatMessages (clearChat now s)
  = kept (chatMessages s)
    ++ [MessageDiv bot (fst (typeText_start CLEARED)) now (snd (typeText_start CLEARED))].
Proof.
  unfold clearChat, kept, addMessage.
  destruct (typeText_start CLEARED).
  destruct (welcome_message (chatMessages s)); reflexivity.
Qed.

Fixpoint query_welcome_found (el : element) :
  forall w, query_welcome el = Some w -> exists html inner, w = Markup true html inner.
Proof.
  destruct el as [welcome html inner|from textContent time typing]; intros w;
    cbn [query_welcome]; [|discriminate].
  destruct welcome.
  - intros H. injection H as <-. eauto.
  - induction inner as [|x inner IH]; [discriminate|].
    destruct (query_welcome x) as [found|] eqn:Hx.
    + intros H. injection H as <-. exact (query_welcome_found x found Hx).
    + exact IH.
Qed.

Lemma welcome_message_found children w :
  welcome_message children = Some w -> exists html inner, w = Markup true html inner.
Proof.
  induction children as [|x children IH]; [discriminate|].
  cbn [welcome_message]. destruct (query_welcome x) as [found|] eqn:Hx.
  - intros H. injection H as <-. exact (query_welcome_found x found Hx).
  - exact IH.
Qed.

Lemma welcome_message_kept children now shown typing :
  welcome_message (kept children ++ [MessageDiv bot shown now typing])
  = welcome_message children.
Proof.
  unfold kept.
  destruct (welcome_message children) as [w|] eqn:Hw; [|reflexivity].
  destruct (welcome_message_found _ _ Hw) as (html & inner & ->). reflexivity.
Qed.

Lemma clearChat_from_welcome now s s' :
  welcome_message (chatMessages s') = welcome_message (chatMessages s) ->
  set_messageCount 0 (set_chatMessages [] s')
  = set_messageCount 0 (set_chatMessages [] s) ->
  clearChat now s' = clearChat now s.
Proof.
  intros Hw Hrest. destruct s, s'.
  cbn [chatMessages] in Hw. cbv [set_messageCount set_chatMessages] in Hrest.
  cbn in Hrest. injection Hrest; intros; subst.
  unfold clearChat. cbn [chatMessages]. rewrite Hw.
  destruct (welcome_message chatMessages0); reflexivity.
Qed.

(** C5 as stated fails: on a page whose container holds a welcome message,
    the container holds two elements after [clearChat], the welcome message
    and the new bot message. *)
Lemma clearChat_length_counterexample :
  transcript (clearChat (lit "10:05") hello_sent)
  = [Markup true (lit "Hello! How can I help you today?") [];
     MessageDiv bot CLEARED (lit "10:05") None]
  /\ length (chatMessages (clearChat (lit "10:05") hello_sent)) <> 1.
Proof. split; [vm_compute; reflexivity|vm_compute; discriminate]. Qed.

(** C5, as the code has it. After [clearChat], whatever the container held,
    it holds a copy of the first welcome message that was anywhere below
    it, when there was one, followed by one new bot message 'Chat cleared!
    How can I help you?': two elements, or one on a page without welcome
    message, and [messageCount] is 1. A second call gives the state the
    first call alone would have given at that time. *)
Theorem clearChat_reseeds (s : state) (now later : jsstring) :
  transcript (clearChat now s)
  = kept (chatMessages s) ++ [MessageDiv bot CLEARED now None]
  /\ messageCount (clearChat now s) = 1
  /\ length (chatMessages (clearChat now s))
     = match welcome_message (chatMessages s) with Some _ => 2 | None => 1 end
  /\ Forall (fun el => exists html inner, el = Markup true html inner)
            (kept (chatMessages s))
  /\ clearChat later (clearChat now s) = clearChat later s.
Proof.
  split; [|split; [|split; [|split]]].
  - unfold transcript. rewrite clearChat_chatMessages, map_app.
    cbn [map settle]. rewrite final_text_start. f_equal.
    unfold kept. destruct (welcome_message _) as [w|] eqn:Hw; [|reflexivity].
    destruct (welcome_message_found _ _ Hw) as (html & inner & ->). reflexivity.
  - unfold clearChat, addMessage. destruct (typeText_start _).
    destruct (welcome_message _); reflexivity.
  - rewrite clearChat_chatMessages, length_app. unfold kept.
    destruct (welcome_message _); reflexivity.
  - unfold kept. destruct (welcome_message _) as [w|] eqn:Hw; repeat constructor.
    exact (welcome_message_found _ _ Hw).
  - apply clearChat_from_welcome.
    + rewrite clearChat_chatMessages. apply welcome_message_kept.
    + unfold clearChat, addMessage. destruct (typeText_start _).
      destruct (welcome_message _); reflexivity.
Qed.

(** On a page whose welcome message sits inside another element of the
    container, [clearChat] finds it there and leaves its copy, a child of
    the container now, in front of the new message. *)
Lemma clearChat_nested_welcome :
  chatMessages nested_page
  = [Markup false (lit "<div class=intro>")
       [Markup true (lit "Hello! How can I help you today?") []]]
  /\ transcript (clearChat (lit "10:05") (constructor nested_page))
     = [Markup true (lit "Hello! How can I help you today?") [];
        MessageDiv bot CLEARED (lit "10:05") None].
Proof. split; vm_compute; reflexivity. Qed.

(** ** C6: the theme *)

Lemma toggleTheme_persists s :
  storedTheme (toggleTheme s) = Some (currentTheme (toggleTheme s))
  /\ dataTheme (toggleTheme s) = Some (currentTheme (toggleTheme s))
  /\ (currentTheme (toggleTheme s) = lit "light"
      \/ currentTheme (toggleTheme s) = lit "dark").
Proof.
  unfold toggleTheme, applyTheme.
  set (b := bool_decide (currentTheme s = lit "light")).
  cbn -[lit]. split; [reflexivity|split; [reflexivity|]].
  destruct b; [right|left]; reflexivity.
Qed.

Lemma constructor_restores page theme :
  storedTheme page = Some theme ->
  theme = lit "light" \/ theme = lit "dark" ->
  currentTheme (constructor page) = theme
  /\ dataTheme (constructor page) = Some theme.
Proof.
  intros Hs Ht. unfold constructor, applyTheme, checkBackendHealth, showLoading.
  cbn -[lit]. rewrite Hs.
  destruct Ht as [-> | ->]; split; vm_compute; reflexivity.
Qed.

(** C6. From a theme that is 'light' or 'dark', [toggleTheme] twice gives
    the theme back. After every [toggleTheme] the theme stored under
    'theme' is the one applied, and a [ChatBot] constructed on any page
    that finds this storage starts with that theme and applies it. *)
Theorem toggleTheme_involutive_persisted (s : state) :
  currentTheme s = lit "light" \/ currentTheme s = lit "dark" ->
  currentTheme (toggleTheme (toggleTheme s)) = currentTheme s
  /\ currentTheme (toggleTheme s) <> currentTheme s
  /\ storedTheme (toggleTheme s) = Some (currentTheme (toggleTheme s))
  /\ dataTheme (toggleTheme s) = Some (currentTheme (toggleTheme s))
  /\ forall page,
       storedTheme page = storedTheme (toggleTheme s) ->
       currentTheme (constructor page) = currentTheme (toggleTheme s)
       /\ dataTheme (constructor page) = Some (currentTheme (toggleTheme s)).
Proof.
  intros Ht.
  destruct (toggleTheme_persists s) as (Hst & Hdt & Hcur).
  split; [|split; [|split; [exact Hst|split; [exact Hdt|]]]].
  - unfold toggleTheme, applyTheme. cbn -[lit].
    destruct Ht as [-> | ->]; vm_compute; reflexivity.
  - unfold toggleTheme, applyTheme. cbn -[lit].
    destruct Ht as [-> | ->]; vm_compute; discriminate.
  - intros page Hpage. apply constructor_restores; [|exact Hcur].
    now rewrite Hpage.
Qed.

Lemma toggleTheme_involutive_persisted_witness :
  currentTheme (toggleTheme (toggleTheme (constructor sample_page)))
  = currentTheme (constructor sample_page)
  /\ storedTheme (toggleTheme (constructor sample_page)) = Some (lit "dark").
Proof.
  destruct (toggleTheme_involutive_persisted (constructor sample_page))
    as (H1 & _ & H3 & _).
  - left. vm_compute. reflexivity.
  - split; [exact H1|]. rewrite H3. vm_compute. reflexivity.
Defined.

(** ** C7: the transcript only grows *)

Lemma transcript_tick s k from textContent time task :
  chatMessages s !! k = Some (MessageDiv from textContent time (Some task)) ->
  transcript
    (set_chatMessages
       (<[k := MessageDiv from (fst (typeText_resume textContent task)) time
                 (snd (typeText_resume textContent task))]> (chatMessages s)) s)
  = transcript s.
Proof.
  intros Hk. unfold transcript. cbn [chatMessages set_chatMessages].
  change (map settle ?l) with (settle <$> l).
  rewrite list_fmap_insert. apply list_insert_id.
  rewrite list_lookup_fmap, Hk. cbn [fmap option_fmap option_map settle].
  now rewrite final_text_resume.
Qed.

Lemma transcript_sendMessage now s :
  transcript (sendMessage now s) = transcript s
  \/ transcript (sendMessage now s)
     = transcript s ++ [MessageDiv user (trim (inputValue s)) now None].
Proof.
  destruct (bool_decide (trim (inputValue s) = [])) eqn:He.
  - left. apply bool_decide_eq_true_1 in He.
    now rewrite sendMessage_ignored by auto.
  - apply bool_decide_eq_false_1 in He.
    destruct (isTyping s) eqn:Ht.
    + left. now rewrite sendMessage_ignored by auto.
    + right. rewrite sendMessage_accepts by assumption.
      unfold transcript. cbn. now rewrite map_app.
Qed.

Lemma transcript_delayed d now s :
  exists m, transcript (sendMessage_delayed d now s) = transcript s ++ [m].
Proof.
  rewrite hideTyping_last_delayed, transcript_hideTyping.
  destruct (reply d) as [| | |text| |];
    try (eexists; unfold transcript; cbn; rewrite map_app; reflexivity).
  eexists. apply transcript_addMessage_bot.
Qed.

(** C7. Every event of the session other than [clearChat] leaves the
    messages of the transcript as they are, each at its place, and appends
    at most one: a message keeps its sender, its time and its text, the
    words typed so far together with those its animation has yet to
    write. *)
Theorem transcript_append_only (s s' : state) (e : event) :
  (forall now, e <> ClearChat now) ->
  step e s = Some s' ->
  exists added,
    transcript s' = transcript s ++ added
    /\ length added <= 1
    /\ forall i m, transcript s !! i = Some m -> transcript s' !! i = Some m.
Proof.
  intros Hclear Hstep.
  assert (H : exists added, transcript s' = transcript s ++ added /\ length added <= 1).
  { destruct e; cbn [step] in Hstep.
    - injection Hstep as <-. exists []. rewrite app_nil_r. split; [reflexivity|simpl; lia].
    - injection Hstep as <-.
      destruct (transcript_sendMessage now s) as [-> | ->].
      + exists []. rewrite app_nil_r. split; [reflexivity|simpl; lia].
      + eexists. split; [reflexivity|simpl; lia].
    - now destruct (Hclear now).
    - injection Hstep as <-. exists []. rewrite app_nil_r. split; [reflexivity|simpl; lia].
    - injection Hstep as <-. exists []. rewrite app_nil_r. split; [reflexivity|simpl; lia].
    - destruct (toastTimers s); [discriminate|]. injection Hstep as <-.
      exists []. rewrite app_nil_r. split; [reflexivity|simpl; lia].
    - destruct (healthPending s); [|discriminate]. injection Hstep as <-.
      exists []. rewrite app_nil_r. split; [|simpl; lia].
      unfold checkBackendHealth_settled. destruct (health_try r); reflexivity.
    - destruct (inflight s !! k); [|discriminate]. injection Hstep as <-.
      unfold sendMessage_settled. destruct (chat_try r) as [d|error].
      + exists []. rewrite app_nil_r. split; [reflexivity|simpl; lia].
      + rewrite hideTyping_last_catch, transcript_hideTyping, transcript_addMessage_bot.
        eexists. split; [reflexivity|simpl; lia].
    - destruct (delaying s !! k) as [d|]; [|discriminate]. injection Hstep as <-.
      destruct (transcript_delayed d now (set_delaying (delete k (delaying s)) s))
        as [m ->].
      exists [m]. split; [reflexivity|simpl; lia].
    - destruct (chatMessages s !! k) as [[|from textContent time [task|]]|] eqn:Hk;
        try discriminate.
      pose proof (transcript_tick s k from textContent time task Hk) as Ht.
      destruct (typeText_resume textContent task) as [shown rest].
      injection Hstep as <-. cbn [fst snd] in Ht.
      exists []. rewrite app_nil_r. split; [exact Ht|simpl; lia]. }
  destruct H as (added & Heq & Hlen). exists added.
  split; [exact Heq|]. split; [exact Hlen|].
  intros i m Hi. rewrite Heq. now apply lookup_app_l_Some.
Qed.

Lemma transcript_append_only_witness :
  exists added,
    transcript hello_sent = transcript hello_typed ++ added
    /\ length added <= 1.
Proof.
  destruct (transcript_append_only hello_typed hello_sent (Send (lit "10:00")))
    as (added & H1 & H2 & _).
  - discriminate.
  - vm_compute. reflexivity.
  - exists added. auto.
Defined.

(** * Further properties of the file *)

(** ** The session: what isTyping, the overlay and the toast stand for *)

Lemma busy_step e s s' :
  one_submit s ->
  (isTyping s = true -> pending_submits s = 1) ->
  step e s = Some s' ->
  isTyping s' = true -> pending_submits s' = 1.
Proof.
  unfold one_submit, pending_submits. intros [Hlen Hidle] Hbusy Hstep.
  destruct e; cbn [step] in Hstep.
  - injection Hstep as <-. exact Hbusy.
  - injection Hstep as <-. unfold sendMessage.
    destruct (bool_decide (trim (inputValue s) = [])); cbn [orb]; [exact Hbusy|].
    destruct (isTyping s) eqn:Ht; [intros _; exact (Hbusy eq_refl)|].
    destruct (Hidle eq_refl) as [Hi Hd]. cbn. rewrite Hi, Hd. reflexivity.
  - injection Hstep as <-. crush_state; exact Hbusy.
  - injection Hstep as <-. exact Hbusy.
  - injection Hstep as <-. exact Hbusy.
  - destruct (toastTimers s); [discriminate|]. injection Hstep as <-. exact Hbusy.
  - destruct (healthPending s); [|discriminate]. injection Hstep as <-.
    unfold checkBackendHealth_settled. destruct (health_try r); exact Hbusy.
  - destruct (inflight s !! k) eqn:Hk; [|discriminate]. injection Hstep as <-.
    destruct (inflight s) as [|q [|q' qs]] eqn:Hin;
      [destruct k; discriminate| |simpl in Hlen; lia].
    destruct (delaying s) as [|d ds] eqn:Hd; [|simpl in Hlen; lia].
    destruct k as [|k]; [|destruct k; discriminate].
    unfold sendMessage_settled. destruct (chat_try r).
    + cbn. rewrite Hd. reflexivity.
    + crush_state; discriminate.
  - destruct (delaying s !! k) eqn:Hk; [|discriminate]. injection Hstep as <-.
    crush_state; discriminate.
  - destruct (chatMessages s !! k) as [[|f tc tm [t|]]|]; try discriminate.
    destruct (typeText_resume tc t). injection Hstep as <-. exact Hbusy.
Qed.

(** X1. In every state of a session [isTyping] is set exactly while one
    call of [sendMessage] is past its guard and has not yet hidden the
    typing indicator (its request is in flight or its typing delay runs);
    there is never more than one such call. *)
Theorem isTyping_while_pending (page s : state) :
  reachable page s ->
  (isTyping s = true <-> pending_submits s = 1)
  /\ (isTyping s = false <-> pending_submits s = 0).
Proof.
  intros Hr.
  assert (H : one_submit s /\ (isTyping s = true -> pending_submits s = 1)).
  { induction Hr as [|s e s' Hr [IH1 IH2] Hstep].
    - split; [apply one_submit_constructor|]. cbn. discriminate.
    - split; [exact (one_submit_step e s s' IH1 Hstep)|].
      exact (busy_step e s s' IH1 IH2 Hstep). }
  destruct H as [[Hlen Hidle] Hbusy]. unfold pending_submits in *.
  destruct (isTyping s).
  - rewrite (Hbusy eq_refl). split; split; auto; discriminate.
  - destruct (Hidle eq_refl) as [-> ->]. split; split; auto; discriminate.
Qed.

Lemma isTyping_while_pending_witness :
  isTyping hello_sent = true /\ pending_submits hello_sent = 1.
Proof.
  assert (Hr : reachable sample_page hello_sent).
  { apply (reachable_step _ hello_typed (Send (lit "10:00"))).
    - apply (reachable_step _ (constructor sample_page) (Input (lit "Hello"))).
      + apply reachable_new.
      + vm_compute. reflexivity.
    - vm_compute. reflexivity. }
  destruct (isTyping_while_pending sample_page hello_sent Hr) as [[H _] _].
  assert (Ht : isTyping hello_sent = true) by (vm_compute; reflexivity).
  split; [exact Ht|exact (H Ht)].
Defined.

Ltac step_inv H :=
  match type of H with
  | step ?e ?s = Some _ =>
      destruct e; cbn [step] in H;
      repeat match type of H with
             | match ?x with _ => _ end = Some _ =>
                 destruct x eqn:?; try discriminate H
             end;
      injection H as <-
  end.

Ltac frame :=
  unfold sendMessage in *; crush_state;
  try reflexivity; try assumption; try discriminate; auto.

Lemma health_frame e s s' :
  is_health e = false ->
  step e s = Some s' ->
  healthPending s' = healthPending s
  /\ loadingShown s' = loadingShown s
  /\ botStatus s' = botStatus s.
Proof. intros He Hstep. step_inv Hstep; try discriminate He; frame. Qed.

Lemma health_done_step e s s' :
  healthPending s = false ->
  step e s = Some s' ->
  healthPending s' = false
  /\ loadingShown s' = loadingShown s
  /\ botStatus s' = botStatus s.
Proof.
  intros Hp Hstep. destruct (is_health e) eqn:He.
  - destruct e; try discriminate He. cbn [step] in Hstep.
    rewrite Hp in Hstep. discriminate.
  - destruct (health_frame e s s' He Hstep) as (H1 & H2 & H3).
    rewrite H1. auto.
Qed.

Lemma overlay_step e s s' :
  loadingShown s = healthPending s ->
  step e s = Some s' ->
  loadingShown s' = healthPending s'.
Proof.
  intros Hinv Hstep. destruct (is_health e) eqn:He.
  - destruct e; try discriminate He. cbn [step] in Hstep.
    destruct (healthPending s); [|discriminate]. injection Hstep as <-.
    unfold checkBackendHealth_settled. destruct (health_try r); reflexivity.
  - destruct (health_frame e s s' He Hstep) as (H1 & H2 & _). congruence.
Qed.

(** X2. In every state of a session the loading overlay is shown exactly
    while the health check has not settled. *)
Theorem overlay_while_health_pending (page s : state) :
  reachable page s -> loadingShown s = healthPending s.
Proof.
  induction 1 as [|s e s' _ IH Hstep].
  - reflexivity.
  - exact (overlay_step e s s' IH Hstep).
Qed.

Lemma overlay_while_health_pending_witness :
  loadingShown hello_sent = true /\ healthPending hello_sent = true.
Proof.
  assert (Hr : reachable sample_page hello_sent).
  { apply (reachable_step _ hello_typed (Send (lit "10:00"))).
    - apply (reachable_step _ (constructor sample_page) (Input (lit "Hello"))).
      + apply reachable_new.
      + vm_compute. reflexivity.
    - vm_compute. reflexivity. }
  pose proof (overlay_while_health_pending sample_page hello_sent Hr) as H.
  split; [rewrite H|]; vm_compute; reflexivity.
Defined.

(** X3. The health check settles once: after it has, whatever events
    follow, no second settling can happen, the overlay stays hidden and
    the status of the bot stays what the check has set. *)
Theorem health_check_once (s s1 s2 : state) (r r' : fetch_result) (es : list event) :
  step (HealthSettled r) s = Some s1 ->
  run es s1 = Some s2 ->
  step (HealthSettled r') s2 = None
  /\ loadingShown s2 = false
  /\ botStatus s2 = botStatus s1
  /\ (botStatus s1 = lit "online" \/ botStatus s1 = lit "offline").
Proof.
  intros Hstep Hrun.
  assert (H1 : healthPending s1 = false /\ loadingShown s1 = false
               /\ (botStatus s1 = lit "online" \/ botStatus s1 = lit "offline")).
  { cbn [step] in Hstep. destruct (healthPending s); [|discriminate].
    injection Hstep as <-. unfold checkBackendHealth_settled.
    destruct (health_try r); cbn -[lit]; auto. }
  destruct H1 as (Hp & Hl & Hb).
  assert (H2 : healthPending s2 = false /\ loadingShown s2 = loadingShown s1
               /\ botStatus s2 = botStatus s1).
  { clear Hstep Hl Hb. revert s1 Hp Hrun.
    induction es as [|e es IH]; intros s1 Hp Hrun; cbn [run] in Hrun.
    - injection Hrun as <-. auto.
    - destruct (step e s1) as [s'|] eqn:He; [|discriminate].
      destruct (health_done_step e s1 s' Hp He) as (Hp' & Hl' & Hb').
      destruct (IH s' Hp' Hrun) as (? & ? & ?).
      repeat split; congruence. }
  destruct H2 as (Hp2 & Hl2 & Hb2).
  split; [cbn [step]; now rewrite Hp2|].
  split; [congruence|]. split; [exact Hb2|exact Hb].
Qed.

Lemma health_check_once_witness :
  step (HealthSettled (Responded true None)) hello_offline_cleared = None
  /\ loadingShown hello_offline_cleared = false
  /\ botStatus hello_offline_cleared = lit "offline".
Proof.
  destruct (health_check_once hello_sent hello_offline hello_offline_cleared
              Rejected (Responded true None)
              [ClearChat (lit "10:03"); ToggleTheme]) as (H1 & H2 & H3 & _).
  - vm_compute. reflexivity.
  - vm_compute. reflexivity.
  - split; [exact H1|]. split; [exact H2|].
    rewrite H3. vm_compute. reflexivity.
Defined.

Lemma toast_step e s s' :
  (toastShown s = true -> 1 <= toastTimers s) ->
  step e s = Some s' ->
  toastShown s' = true -> 1 <= toastTimers s'.
Proof. intros Hinv Hstep. step_inv Hstep; frame; lia. Qed.

(** X4. In every state of a session a toast that is shown has a timer
    pending that will hide it. *)
Theorem shown_toast_has_timer (page s : state) :
  reachable page s -> toastShown s = true -> 1 <= toastTimers s.
Proof.
  induction 1 as [|s e s' _ IH Hstep].
  - intros _. cbn. lia.
  - exact (toast_step e s s' IH Hstep).
Qed.

(** X5. [showError] leaves the timers of earlier toasts running: when one
    of them runs out it hides the newer message, whose own timer is still
    pending. *)
Theorem earlier_timer_hides_toast (s : state) (message : toast_text) :
  1 <= toastTimers s ->
  exists s',
    step ToastTimer (showError message s) = Some s'
    /\ toastShown (showError message s) = true
    /\ toastShown s' = false
    /\ toastText s' = message
    /\ 1 <= toastTimers s'.
Proof.
  intros Ht. eexists. split; [reflexivity|]. repeat split. exact Ht.
Qed.

Lemma earlier_timer_hides_toast_witness :
  exists s',
    step ToastTimer (showError (Text (lit "first")) (constructor sample_page)) = Some s'
    /\ toastShown s' = false
    /\ 1 <= toastTimers s'.
Proof.
  destruct (earlier_timer_hides_toast (constructor sample_page) (Text (lit "first")))
    as (s' & H1 & _ & H3 & _ & H5).
  - vm_compute. lia.
  - exists s'. auto.
Defined.

Lemma shown_toast_has_timer_witness :
  toastShown hello_offline = true /\ 1 <= toastTimers hello_offline.
Proof.
  assert (Hr : reachable sample_page hello_offline).
  { apply (reachable_step _ hello_sent (HealthSettled Rejected)).
    - apply (reachable_step _ hello_typed (Send (lit "10:00"))).
      + apply (reachable_step _ (constructor sample_page) (Input (lit "Hello"))).
        * apply reachable_new.
        * vm_compute. reflexivity.
      + vm_compute. reflexivity.
    - vm_compute. reflexivity. }
  assert (Ht : toastShown hello_offline = true) by (vm_compute; reflexivity).
  split; [exact Ht|].
  exact (shown_toast_has_timer sample_page hello_offline Hr Ht).
Defined.

(** ** The widgets of the input row *)

Lemma in_sync_step e s s' : in_sync s -> step e s = Some s' -> in_sync s'.
Proof.
  unfold in_sync. intros (H1 & H2 & H3) Hstep.
  step_inv Hstep; unfold sendMessage in *; crush_state; auto.
Qed.

(** X6. Once the typing indicator agrees with [isTyping], an edit of the
    textarea brings the widgets in line with the state, and every event
    after it keeps them so: the indicator is shown exactly while [isTyping]
    is set, the send button is disabled exactly when the trimmed input is
    empty or [isTyping] is set, and the counter shows the length of the
    input. *)
Theorem widgets_in_sync (s s' : state) (value : jsstring) (es : list event) :
  typingShown s = isTyping s ->
  run (Input value :: es) s = Some s' ->
  in_sync s'.
Proof.
  intros Ht Hrun. cbn [run step] in Hrun.
  assert (H0 : in_sync (updateSendButton (updateCharCount (set_inputValue value s)))).
  { unfold in_sync. cbn. auto. }
  revert H0 Hrun. generalize (updateSendButton (updateCharCount (set_inputValue value s))).
  induction es as [|e es IH]; intros s0 H0 Hrun; cbn [run] in Hrun.
  - now injection Hrun as <-.
  - destruct (step e s0) as [s1|] eqn:He; [|discriminate].
    exact (IH s1 (in_sync_step e s0 s1 H0 He) Hrun).
Qed.

Lemma widgets_in_sync_witness : in_sync hello_sent.
Proof.
  apply (widgets_in_sync (constructor sample_page) hello_sent (lit "Hello")
           [Send (lit "10:00")]).
  - vm_compute. reflexivity.
  - vm_compute. reflexivity.
Defined.

(** X7. While the widgets are in line with the state, the send button is
    disabled exactly when [sendMessage] would do nothing. *)
Theorem send_button_tells (s : state) (now : jsstring) :
  in_sync s ->
  (sendDisabled s = true <-> sendMessage now s = s).
Proof.
  intros (_ & Hd & _). rewrite Hd. unfold sendMessage.
  destruct (bool_decide_reflect (trim (inputValue s) = [])) as [He|He].
  - rewrite He. cbn. tauto.
  - assert (Hl : (0 <? length (trim (inputValue s))) = true).
    { apply Nat.ltb_lt. destruct (trim (inputValue s)); [congruence|simpl; lia]. }
    rewrite Hl. cbn [negb orb].
    destruct (isTyping s) eqn:Ht; [tauto|].
    split; [discriminate|]. intros Heq.
    apply (f_equal messageCount) in Heq. cbn in Heq. lia.
Qed.

Lemma send_button_tells_witness :
  sendDisabled hello_sent = true
  /\ sendMessage (lit "10:02") hello_sent = hello_sent.
Proof.
  assert (Hs : in_sync hello_sent).
  { unfold in_sync. vm_compute. auto. }
  destruct (send_button_tells hello_sent (lit "10:02") Hs) as [H _].
  assert (Hd : sendDisabled hello_sent = true) by (vm_compute; reflexivity).
  split; [exact Hd|exact (H Hd)].
Defined.

(** ** The theme *)

Lemma theme_frame e s s' :
  e <> ToggleTheme ->
  step e s = Some s' ->
  currentTheme s' = currentTheme s
  /\ dataTheme s' = dataTheme s
  /\ themeIcon s' = themeIcon s
  /\ storedTheme s' = storedTheme s.
Proof. intros He Hstep. step_inv Hstep; try congruence; frame. Qed.

Lemma theme_step e s s' :
  dataTheme s = Some (currentTheme s)
  /\ themeIcon s = icon_of (currentTheme s)
  /\ currentTheme s <> [] ->
  step e s = Some s' ->
  dataTheme s' = Some (currentTheme s')
  /\ themeIcon s' = icon_of (currentTheme s')
  /\ currentTheme s' <> [].
Proof.
  intros (H1 & H2 & H3) Hstep.
  assert (Hd : e = ToggleTheme \/ e <> ToggleTheme)
    by (destruct e; first [left; reflexivity | right; discriminate]).
  destruct Hd as [->|He].
  - injection Hstep as <-.
    destruct (toggleTheme_persists s) as (_ & Hd & Hc).
    split; [exact Hd|]. split; [reflexivity|].
    destruct Hc as [-> | ->]; discriminate.
  - destruct (theme_frame e s s' He Hstep) as (F1 & F2 & F3 & _).
    rewrite F1, F2, F3. auto.
Qed.

(** X8. In every state of a session the theme applied to the document is
    [currentTheme], the icon of the button is the moon for 'light' and the
    sun for anything else, and [currentTheme] is not the empty string. *)
Theorem theme_applied (page s : state) :
  reachable page s ->
  dataTheme s = Some (currentTheme s)
  /\ themeIcon s = icon_of (currentTheme s)
  /\ currentTheme s <> [].
Proof.
  induction 1 as [|s e s' _ IH Hstep].
  - split; [reflexivity|]. split; [reflexivity|].
    change (currentTheme (constructor page)) with (initial_theme (storedTheme page)).
    unfold initial_theme. destruct (storedTheme page) as [[|c t]|]; discriminate.
  - exact (theme_step e s s' IH Hstep).
Qed.

Lemma theme_applied_witness :
  dataTheme hello_offline_cleared = Some (lit "dark")
  /\ themeIcon hello_offline_cleared = lit "fas fa-sun".
Proof.
  assert (Hr : reachable sample_page hello_offline_cleared).
  { apply (reachable_step _ (clearChat (lit "10:03") hello_offline) ToggleTheme).
    - apply (reachable_step _ hello_offline (ClearChat (lit "10:03"))).
      + apply (reachable_step _ hello_sent (HealthSettled Rejected)).
        * apply (reachable_step _ hello_typed (Send (lit "10:00"))).
          -- apply (reachable_step _ (constructor sample_page) (Input (lit "Hello"))).
             ++ apply reachable_new.
             ++ vm_compute. reflexivity.
          -- vm_compute. reflexivity.
        * vm_compute. reflexivity.
      + vm_compute. reflexivity.
    - vm_compute. reflexivity. }
  destruct (theme_applied sample_page hello_offline_cleared Hr) as (H1 & H2 & _).
  split; [rewrite H1|rewrite H2]; vm_compute; reflexivity.
Defined.

(** X9. A stored theme is taken as it is, whatever string it is; without
    one, or with the empty string, the session starts 'light'. From any
    theme one [toggleTheme] leads to 'light' or 'dark' ('dark' only from
    'light'), so a theme that is neither is not come back to. *)
Theorem theme_of_any_string (page s : state) (c : N) (rest : jsstring) :
  (storedTheme page = Some (c :: rest) -> currentTheme (constructor page) = c :: rest)
  /\ (storedTheme page = None \/ storedTheme page = Some [] ->
      currentTheme (constructor page) = lit "light")
  /\ (currentTheme s <> lit "light" -> currentTheme (toggleTheme s) = lit "light")
  /\ (currentTheme s = lit "light" -> currentTheme (toggleTheme s) = lit "dark")
  /\ (currentTheme s <> lit "light" -> currentTheme s <> lit "dark" ->
      forall n, currentTheme (Nat.iter (S n) toggleTheme s) <> currentTheme s).
Proof.
  assert (Hne : currentTheme s <> lit "light" -> currentTheme (toggleTheme s) = lit "light").
  { intros H. unfold toggleTheme, applyTheme. cbn -[lit].
    now rewrite bool_decide_eq_false_2. }
  assert (Heq : currentTheme s = lit "light" -> currentTheme (toggleTheme s) = lit "dark").
  { intros H. unfold toggleTheme, applyTheme. cbn -[lit].
    now rewrite bool_decide_eq_true_2. }
  split; [|split; [|split; [exact Hne|split; [exact Heq|]]]].
  - intros H. unfold constructor, applyTheme, initial_theme. cbn -[lit].
    now rewrite H.
  - intros [H|H]; unfold constructor, applyTheme, initial_theme; cbn -[lit];
      now rewrite H.
  - intros H1 H2 n.
    assert (Hin : currentTheme (Nat.iter (S n) toggleTheme s) = lit "light"
                  \/ currentTheme (Nat.iter (S n) toggleTheme s) = lit "dark").
    { cbn [Nat.iter nat_rect]. apply toggleTheme_persists. }
    destruct Hin as [Hin|Hin]; rewrite Hin; congruence.
Qed.

Lemma theme_of_any_string_witness :
  currentTheme (constructor (set_storedTheme (Some (lit "blue")) sample_page)) = lit "blue"
  /\ currentTheme (toggleTheme (constructor (set_storedTheme (Some (lit "blue")) sample_page)))
     = lit "light".
Proof.
  destruct (theme_of_any_string (set_storedTheme (Some (lit "blue")) sample_page)
              (constructor (set_storedTheme (Some (lit "blue")) sample_page))
              98%N (lit "lue")) as (H1 & _ & H3 & _).
  split.
  - apply H1. vm_compute. reflexivity.
  - apply H3. vm_compute. discriminate.
Defined.

(** ** The container *)

Lemma built_app l1 l2 : built (l1 ++ l2) = built l1 + built l2.
Proof. unfold built. now rewrite filter_app, length_app. Qed.

Lemma built_cons x l :
  built (x :: l) = (if is_message x then 1 else 0) + built l.
Proof.
  unfold built. rewrite filter_cons.
  destruct (is_message x); destruct (decide _); try reflexivity; congruence.
Qed.

Lemma built_insert l k el el' :
  l !! k = Some el -> is_message el = is_message el' ->
  built (<[k := el']> l) = built l.
Proof.
  revert k. induction l as [|x l IH]; intros [|k] Hk Hm; try discriminate.
  - injection Hk as ->. change (<[0 := el']> (el :: l)) with (el' :: l).
    now rewrite !built_cons, Hm.
  - change (<[S k := el']> (x :: l)) with (x :: <[k := el']> l).
    rewrite !built_cons. now rewrite (IH k Hk Hm).
Qed.

Lemma built_kept l : built (kept l) = 0.
Proof.
  unfold kept. destruct (welcome_message l) as [w|] eqn:Hw; [|reflexivity].
  destruct (welcome_message_found _ _ Hw) as (html & inner & ->). reflexivity.
Qed.

Lemma built_one el : is_message el = true -> built [el] = 1.
Proof. intros H. rewrite built_cons, H. reflexivity. Qed.

Lemma built_step e s s' :
  messageCount s = built (chatMessages s) ->
  step e s = Some s' ->
  messageCount s' = built (chatMessages s').
Proof.
  intros Hinv Hstep. step_inv Hstep.
  - exact Hinv.
  - unfold sendMessage.
    destruct (bool_decide _ || isTyping s); [exact Hinv|].
    cbn -[built]. rewrite built_app, built_one, <- Hinv by reflexivity. lia.
  - rewrite clearChat_chatMessages, built_app, built_kept.
    unfold clearChat, addMessage. destruct (typeText_start CLEARED).
    destruct (welcome_message _); reflexivity.
  - exact Hinv.
  - exact Hinv.
  - exact Hinv.
  - unfold checkBackendHealth_settled.
    destruct (health_try r); exact Hinv.
  - unfold sendMessage_settled. destruct (chat_try r); [exact Hinv|].
    unfold chat_catch, addMessage. destruct (typeText_start FALLBACK).
    cbn -[built]. rewrite built_app, built_one, <- Hinv by reflexivity. lia.
  - unfold sendMessage_delayed, addMessage_unsplittable, addMessage.
    destruct (reply _); try destruct (typeText_start _);
      cbn -[built]; rewrite built_app, built_one, <- Hinv by reflexivity; lia.
  - cbn [messageCount chatMessages set_chatMessages].
    match goal with
    | Hk : chatMessages s !! k = Some _ |- _ =>
        rewrite (built_insert _ _ _ _ Hk) by reflexivity
    end.
    exact Hinv.
Qed.

(** X10. On a page whose container holds no message yet, [messageCount] is
    in every state of the session the number of messages in the container:
    the elements of the page, the welcome message among them, are not
    counted, and [clearChat] starts again at one. *)
Theorem messageCount_counts (page s : state) :
  built (chatMessages page) = 0 ->
  reachable page s ->
  messageCount s = built (chatMessages s).
Proof.
  intros Hpage. induction 1 as [|s e s' _ IH Hstep].
  - cbn -[built]. now rewrite Hpage.
  - exact (built_step e s s' IH Hstep).
Qed.

Lemma messageCount_counts_witness :
  messageCount hello_offline = 1 /\ built (chatMessages hello_offline) = 1.
Proof.
  assert (Hr : reachable sample_page hello_offline).
  { apply (reachable_step _ hello_sent (HealthSettled Rejected)).
    - apply (reachable_step _ hello_typed (Send (lit "10:00"))).
      + apply (reachable_step _ (constructor sample_page) (Input (lit "Hello"))).
        * apply reachable_new.
        * vm_compute. reflexivity.
      + vm_compute. reflexivity.
    - vm_compute. reflexivity. }
  assert (H0 : built (chatMessages sample_page) = 0) by (vm_compute; reflexivity).
  pose proof (messageCount_counts sample_page hello_offline H0 Hr) as H.
  split; [rewrite H|]; vm_compute; reflexivity.
Defined.

(** ** What a response leads to *)

(** X11. The toast of a response that is not ok shows the [detail] of its
    body when that is a string that is not empty; when the body is an
    object without [detail], or with a [detail] that is null or the empty
    string, it shows 'Failed to get response'. *)
Theorem error_toast_text (s : state) (k : nat) (q : request) (now : jsstring)
    (members : list (jsstring * json)) :
  inflight s !! k = Some q ->
  exists s',
    step (ChatSettled k (Responded false (Some (JObj members))) now) s = Some s'
    /\ toastShown s' = true
    /\ (forall detail, member (lit "detail") members = Some (JStr detail) ->
                       detail <> [] -> toastText s' = Text detail)
    /\ (member (lit "detail") members = None
        \/ member (lit "detail") members = Some JNull
        \/ member (lit "detail") members = Some (JStr []) ->
        toastText s' = Text (lit "Failed to get response")).
Proof.
  intros Hk. cbn [step]. rewrite Hk. eexists. split; [reflexivity|].
  unfold sendMessage_settled.
  change (chat_try (Responded false (Some (JObj members))))
    with (Throw (A := delayed)
            (ErrorOf (if truthy (member (lit "detail") members)
                      then default JNull (member (lit "detail") members)
                      else JStr (lit "Failed to get response")))).
  cbv beta iota. rewrite hideTyping_last_catch.
  split; [reflexivity|]. split.
  - intros detail Hm Hne. rewrite Hm.
    unfold truthy. rewrite bool_decide_eq_false_2 by exact Hne. reflexivity.
  - intros [Hm|[Hm|Hm]]; rewrite Hm; reflexivity.
Qed.

Lemma error_toast_text_witness :
  exists s',
    step (ChatSettled 0
            (Responded false (Some (JObj [(lit "detail", JStr (lit "Model not loaded"))])))
            (lit "10:01")) hello_sent = Some s'
    /\ toastText s' = Text (lit "Model not loaded").
Proof.
  destruct (error_toast_text hello_sent 0 (chat_request (lit "Hello")) (lit "10:01")
              [(lit "detail", JStr (lit "Model not loaded"))])
    as (s' & H1 & _ & H3 & _).
  - vm_compute. reflexivity.
  - exists s'. split; [exact H1|]. apply H3.
    + vm_compute. reflexivity.
    + vm_compute. discriminate.
Defined.

Lemma chat_try_ok_throws body :
  (forall members v, body = Some (JObj members) ->
                     member (lit "reply") members = Some v -> v = JNull) ->
  exists error, chat_try (Responded true body) = Throw error.
Proof.
  intros H. destruct body as [data|]; [|eexists; reflexivity].
  destruct data as [| | | | |members]; try (eexists; reflexivity).
  unfold chat_try. cbn [response_json bind get].
  destruct (member (lit "reply") members) as [v|] eqn:Hm.
  - rewrite (H members v eq_refl Hm). eexists. reflexivity.
  - eexists. reflexivity.
Qed.

(** X12. A response that is ok is handled like a failure unless its body
    is an object with a [reply] that is not null: when the body does not
    parse, is no object, or has no [reply] or a null one, the fallback
    message is appended, the toast is shown, [isTyping] is false and no
    typing delay starts. *)
Theorem ok_response_without_reply (s : state) (k : nat) (q : request)
    (now : jsstring) (body : option json) :
  inflight s !! k = Some q ->
  (forall members v, body = Some (JObj members) ->
                     member (lit "reply") members = Some v -> v = JNull) ->
  exists s',
    step (ChatSettled k (Responded true body) now) s = Some s'
    /\ transcript s' = transcript s ++ [MessageDiv bot FALLBACK now None]
    /\ toastShown s' = true
    /\ isTyping s' = false
    /\ delaying s' = delaying s.
Proof.
  intros Hk Hbody. destruct (chat_try_ok_throws body Hbody) as [error He].
  cbn [step]. rewrite Hk. eexists. split; [reflexivity|].
  unfold sendMessage_settled. rewrite He. cbv beta iota.
  rewrite hideTyping_last_catch.
  rewrite transcript_hideTyping, transcript_addMessage_bot.
  repeat split.
Qed.

Lemma ok_response_without_reply_witness :
  exists s',
    step (ChatSettled 0 (Responded true (Some (JObj [(lit "answer", JStr (lit "Hi"))])))
            (lit "10:01")) hello_sent = Some s'
    /\ transcript s' = transcript hello_sent ++ [MessageDiv bot FALLBACK (lit "10:01") None]
    /\ isTyping s' = false.
Proof.
  destruct (ok_response_without_reply hello_sent 0 (chat_request (lit "Hello"))
              (lit "10:01") (Some (JObj [(lit "answer", JStr (lit "Hi"))])))
    as (s' & H1 & H2 & _ & H4 & _).
  - vm_compute. reflexivity.
  - intros members v Hb Hm. injection Hb as <-. vm_compute in Hm. discriminate.
  - exists s'. auto.
Defined.

Lemma chat_try_unsplittable members v :
  member (lit "reply") members = Some v ->
  v <> JNull ->
  exists t, chat_try (Responded true (Some (JObj members)))
            = Normal {| reply := v; timer := t |}.
Proof.
  intros Hm Hv. unfold chat_try. cbn [response_json bind get]. rewrite Hm.
  destruct v; try congruence; cbn; eauto.
Qed.

(** X13. A response that is ok with a [reply] that is neither null nor a
    string (a number, a boolean, an array, an object) ends, after the
    typing delay, in an empty bot message: no fallback text, the toast
    left as it was, [isTyping] false. *)
Theorem reply_not_a_string (s : state) (k : nat) (q : request)
    (now later : jsstring) (members : list (jsstring * json)) (v : json) :
  inflight s !! k = Some q ->
  member (lit "reply") members = Some v ->
  v <> JNull ->
  (forall text, v <> JStr text) ->
  exists s',
    run [ChatSettled k (Responded true (Some (JObj members))) now;
         DelayElapsed (length (delaying s)) later] s = Some s'
    /\ chatMessages s' = chatMessages s ++ [MessageDiv bot [] later None]
    /\ toastShown s' = toastShown s
    /\ toastText s' = toastText s
    /\ isTyping s' = false.
Proof.
  intros Hk Hm Hnull Hstr.
  destruct (chat_try_unsplittable members v Hm Hnull) as [t Ht].
  cbn [run step]. rewrite Hk. unfold sendMessage_settled. rewrite Ht.
  cbv beta iota. cbn [step].
  change (delaying (set_delaying ?a ?b)) with a.
  rewrite list_lookup_middle by reflexivity.
  eexists. split; [reflexivity|].
  unfold sendMessage_delayed. cbn [reply].
  destruct v; try (repeat split; fail).
  now destruct (Hstr s0).
Qed.

Lemma reply_not_a_string_witness :
  exists s',
    run [ChatSettled 0 (Responded true (Some (JObj [(lit "reply", JNum 42)]))) (lit "10:01");
         DelayElapsed 0 (lit "10:02")] hello_sent = Some s'
    /\ chatMessages s' = chatMessages hello_sent ++ [MessageDiv bot [] (lit "10:02") None]
    /\ toastShown s' = false.
Proof.
  destruct (reply_not_a_string hello_sent 0 (chat_request (lit "Hello"))
              (lit "10:01") (lit "10:02") [(lit "reply", JNum 42)] (JNum 42))
    as (s' & H1 & H2 & H3 & _).
  - vm_compute. reflexivity.
  - vm_compute. reflexivity.
  - discriminate.
  - discriminate.
  - exists s'. split; [exact H1|]. split; [exact H2|].
    rewrite H3. vm_compute. reflexivity.
Defined.

(** ** The transcript over a whole run *)

Lemma transcript_step e s s' :
  is_clear e = false ->
  step e s = Some s' ->
  exists added, transcript s' = transcript s ++ added /\ length added <= 1.
Proof.
  intros Hc Hstep. destruct e; try discriminate Hc; cbn [step] in Hstep.
  - injection Hstep as <-. exists []. rewrite app_nil_r. split; [reflexivity|simpl; lia].
  - injection Hstep as <-.
    destruct (transcript_sendMessage now s) as [-> | ->].
    + exists []. rewrite app_nil_r. split; [reflexivity|simpl; lia].
    + eexists. split; [reflexivity|simpl; lia].
  - injection Hstep as <-. exists []. rewrite app_nil_r. split; [reflexivity|simpl; lia].
  - injection Hstep as <-. exists []. rewrite app_nil_r. split; [reflexivity|simpl; lia].
  - destruct (toastTimers s); [discriminate|]. injection Hstep as <-.
    exists []. rewrite app_nil_r. split; [reflexivity|simpl; lia].
  - destruct (healthPending s); [|discriminate]. injection Hstep as <-.
    exists []. rewrite app_nil_r. split; [|simpl; lia].
    unfold checkBackendHealth_settled. destruct (health_try r); reflexivity.
  - destruct (inflight s !! k); [|discriminate]. injection Hstep as <-.
    unfold sendMessage_settled. destruct (chat_try r) as [d|error].
    + exists []. rewrite app_nil_r. split; [reflexivity|simpl; lia].
    + rewrite hideTyping_last_catch, transcript_hideTyping, transcript_addMessage_bot.
      eexists. split; [reflexivity|simpl; lia].
  - destruct (delaying s !! k) as [d|]; [|discriminate]. injection Hstep as <-.
    destruct (transcript_delayed d now (set_delaying (delete k (delaying s)) s))
      as [m ->].
    exists [m]. split; [reflexivity|simpl; lia].
  - destruct (chatMessages s !! k) as [[|from textContent time [task|]]|] eqn:Hk;
      try discriminate.
    pose proof (transcript_tick s k from textContent time task Hk) as Ht.
    destruct (typeText_resume textContent task) as [shown rest].
    injection Hstep as <-. cbn [fst snd] in Ht.
    exists []. rewrite app_nil_r. split; [exact Ht|simpl; lia].
Qed.

(** X14. Over a run of events without [clearChat] the transcript at the
    start is a prefix of the transcript at the end, which has at most one
    message more per event. *)
Theorem transcript_grows_over_run (es : list event) (s s' : state) :
  forallb (fun e => negb (is_clear e)) es = true ->
  run es s = Some s' ->
  transcript s `prefix_of` transcript s'
  /\ length (transcript s') <= length (transcript s) + length es.
Proof.
  revert s. induction es as [|e es IH]; intros s Hc Hrun; cbn [run] in Hrun.
  - injection Hrun as <-. split; [reflexivity|lia].
  - cbn [forallb] in Hc. apply andb_prop in Hc as [He Hc].
    apply negb_true_iff in He.
    destruct (step e s) as [s1|] eqn:Hstep; [|discriminate].
    destruct (transcript_step e s s1 He Hstep) as (added & Heq & Hlen).
    destruct (IH s1 Hc Hrun) as [Hp Hl]. split.
    + transitivity (transcript s1); [|exact Hp].
      rewrite Heq. now apply prefix_app_r.
    + rewrite Heq, length_app in Hl. cbn [length]. lia.
Qed.

Lemma transcript_grows_over_run_witness :
  transcript (constructor sample_page) `prefix_of` transcript hello_offline.
Proof.
  destruct (transcript_grows_over_run
              [Input (lit "Hello"); Send (lit "10:00"); HealthSettled Rejected]
              (constructor sample_page) hello_offline) as [H _].
  - vm_compute. reflexivity.
  - vm_compute. reflexivity.
  - exact H.
Defined.

Lemma transcript_clearChat now s :
  transcript (clearChat now s)
  = kept (chatMessages s) ++ [MessageDiv bot CLEARED now None].
Proof.
  unfold transcript. rewrite clearChat_chatMessages, map_app.
  cbn [map settle]. rewrite final_text_start. f_equal.
  unfold kept. destruct (welcome_message _) as [w|] eqn:Hw; [|reflexivity].
  destruct (welcome_message_found _ _ Hw) as (html & inner & ->). reflexivity.
Qed.

Lemma transcript_set_delaying d s : transcript (set_delaying d s) = transcript s.
Proof. reflexivity. Qed.

(** X15. A reply that comes in after [clearChat] is not lost and does not
    bring the old messages back: [clearChat] leaves the pending call of
    [sendMessage] alone, and when its typing delay ends the bot message is
    appended behind 'Chat cleared! How can I help you?'. *)
Theorem reply_after_clearChat (s : state) (j : nat) (answer : jsstring)
    (t : option Z) (now later : jsstring) :
  delaying s !! j = Some {| reply := JStr answer; timer := t |} ->
  exists s',
    run [ClearChat now; DelayElapsed j later] s = Some s'
    /\ transcript s'
       = kept (chatMessages s)
         ++ [MessageDiv bot CLEARED now None; MessageDiv bot answer later None]
    /\ isTyping (clearChat now s) = isTyping s
    /\ isTyping s' = false
    /\ messageCount s' = 2.
Proof.
  intros Hj. cbn [run step].
  assert (Hd : delaying (clearChat now s) = delaying s).
  { unfold clearChat, addMessage. destruct (typeText_start CLEARED).
    destruct (welcome_message _); reflexivity. }
  rewrite Hd, Hj. eexists. split; [reflexivity|].
  rewrite hideTyping_last_delayed. cbn [reply].
  rewrite transcript_hideTyping, transcript_addMessage_bot.
  split; [|split; [|split]].
  - rewrite transcript_set_delaying, transcript_clearChat.
    now rewrite <- app_assoc.
  - unfold clearChat, addMessage. destruct (typeText_start CLEARED).
    destruct (welcome_message _); reflexivity.
  - unfold addMessage. destruct (typeText_start answer). reflexivity.
  - unfold addMessage. destruct (typeText_start answer).
    unfold clearChat, addMessage. destruct (typeText_start CLEARED).
    destruct (welcome_message _); reflexivity.
Qed.

Lemma reply_after_clearChat_witness :
  (exists s',
      run [ClearChat (lit "10:02"); DelayElapsed 0 (lit "10:03")] hello_answered = Some s'
      /\ transcript s'
         = [Markup true (lit "Hello! How can I help you today?") [];
            MessageDiv bot CLEARED (lit "10:02") None;
            MessageDiv bot (lit "Hi there") (lit "10:03") None]
      /\ isTyping s' = false)
  /\ (exists s',
        run [ClearChat (lit "10:02"); DelayElapsed 0 (lit "10:03")] nested_answered = Some s'
        /\ transcript s'
           = [Markup true (lit "Hello! How can I help you today?") [];
              MessageDiv bot CLEARED (lit "10:02") None;
              MessageDiv bot (lit "Hi there") (lit "10:03") None]).
Proof.
  split.
  - destruct (reply_after_clearChat hello_answered 0 (lit "Hi there")
                (Some 1240%Z) (lit "10:02") (lit "10:03"))
      as (s' & H1 & H2 & _ & H4 & _).
    + vm_compute. reflexivity.
    + exists s'. split; [exact H1|]. split; [|exact H4].
      rewrite H2. vm_compute. reflexivity.
  - destruct (reply_after_clearChat nested_answered 0 (lit "Hi there")
                (Some 1240%Z) (lit "10:02") (lit "10:03"))
      as (s' & H1 & H2 & _).
    + vm_compute. reflexivity.
    + exists s'. split; [exact H1|]. rewrite H2. vm_compute. reflexivity.
Defined.

(** ** The animation and the text sent *)

Lemma typeText_from_extends i ws textContent :
  textContent `prefix_of` typeText_from i ws textContent.
Proof.
  revert i textContent. induction ws as [|w ws IH]; intros i textContent.
  - reflexivity.
  - cbn [typeText_from]. transitivity (type_word i w textContent); [|apply IH].
    unfold type_word. now apply prefix_app_r.
Qed.

Lemma final_text_iter text n :
  final_text (fst (Nat.iter n resume (typeText_start text)))
             (snd (Nat.iter n resume (typeText_start text))) = text.
Proof.
  induction n as [|n IH]; [apply final_text_start|].
  change (Nat.iter (S n) resume (typeText_start text))
    with (resume (Nat.iter n resume (typeText_start text))).
  destruct (Nat.iter n resume (typeText_start text)) as [shown [task|]].
  - change (resume (shown, Some task)) with (typeText_resume shown task).
    rewrite final_text_resume. exact IH.
  - exact IH.
Qed.

(** X16. At every moment of the animation the element shows a prefix of
    the text of the message: after any number of resumptions of
    [typeText], what is written so far is a beginning of [text]. *)
Theorem typing_shows_prefix (text : jsstring) (n : nat) :
  fst (Nat.iter n resume (typeText_start text)) `prefix_of` text.
Proof.
  pose proof (final_text_iter text n) as H.
  destruct (Nat.iter n resume (typeText_start text)) as [shown [task|]];
    cbn [fst snd final_text] in *.
  - rewrite <- H. apply typeText_from_extends.
  - now rewrite H.
Qed.

Lemma trimStart_split s :
  exists before, s = before ++ trimStart s /\ forallb is_white before = true.
Proof.
  induction s as [|c s (before & Heq & Hw)].
  - exists []. auto.
  - cbn [trimStart]. destruct (is_white c) eqn:Hc.
    + exists (c :: before). cbn [forallb app]. rewrite Hc, Hw. now rewrite <- Heq.
    + exists []. auto.
Qed.

Lemma trimStart_head s c rest : trimStart s = c :: rest -> is_white c = false.
Proof.
  induction s as [|x s IH]; [discriminate|].
  cbn [trimStart]. destruct (is_white x) eqn:Hx; [exact IH|].
  intros H. injection H as <- _. exact Hx.
Qed.

Lemma forallb_rev (f : N -> bool) l : forallb f l = true -> forallb f (rev l) = true.
Proof.
  rewrite !forallb_forall. intros H x Hx. apply H. now apply in_rev.
Qed.

Lemma trimEnd_split s :
  exists after, s = trimEnd s ++ after /\ forallb is_white after = true.
Proof.
  unfold trimEnd. destruct (trimStart_split (rev s)) as (before & Heq & Hw).
  exists (rev before). split; [|now apply forallb_rev].
  rewrite <- rev_app_distr, <- Heq. now rewrite rev_involutive.
Qed.

Lemma trimEnd_last s : trimEnd s <> [] ->
  exists front c, trimEnd s = front ++ [c] /\ is_white c = false.
Proof.
  unfold trimEnd. destruct (trimStart (rev s)) as [|c rest] eqn:E; [easy|].
  intros _. exists (rev rest), c. split; [reflexivity|].
  exact (trimStart_head _ _ _ E).
Qed.

(** X17. The message [sendMessage] accepts is the input without the white
    space around it: the input is white space, the message, white space;
    the message is not empty and neither begins nor ends with a white
    space character; and it is this message that goes into the request. *)
Theorem accepted_message_is_trimmed (s : state) (now : jsstring) :
  trim (inputValue s) <> [] ->
  isTyping s = false ->
  exists before message after first rest front last,
    inputValue s = before ++ message ++ after
    /\ forallb is_white before = true
    /\ forallb is_white after = true
    /\ message = first :: rest /\ is_white first = false
    /\ message = front ++ [last] /\ is_white last = false
    /\ inflight (sendMessage now s) = inflight s ++ [chat_request message].
Proof.
  intros Hne Ht.
  destruct (trimStart_split (inputValue s)) as (before & Hb & Hwb).
  destruct (trimEnd_split (trimStart (inputValue s))) as (after & Ha & Hwa).
  destruct (trimEnd_last (trimStart (inputValue s)) Hne) as (front & last & Hl & Hwl).
  fold (trim (inputValue s)) in Ha, Hl.
  destruct (trim (inputValue s)) as [|first rest] eqn:Hm; [congruence|].
  exists before, (first :: rest), after, first, rest, front, last.
  split; [now rewrite <- Ha|]. split; [exact Hwb|]. split; [exact Hwa|].
  split; [reflexivity|]. split.
  - destruct (trimStart (inputValue s)) as [|c t] eqn:E; [discriminate|].
    injection Ha as <- _. exact (trimStart_head _ _ _ E).
  - split; [exact Hl|]. split; [exact Hwl|].
    rewrite sendMessage_accepts by (rewrite ?Hm; congruence).
    rewrite Hm. reflexivity.
Qed.

Lemma accepted_message_is_trimmed_witness :
  exists before message after,
    inputValue padded_typed = before ++ message ++ after
    /\ forallb is_white before = true
    /\ inflight (sendMessage (lit "10:00") padded_typed)
       = inflight padded_typed ++ [chat_request message].
Proof.
  destruct (accepted_message_is_trimmed padded_typed (lit "10:00"))
    as (before & message & after & first & rest & front & last
        & H1 & H2 & _ & _ & _ & _ & _ & H8).
  - vm_compute. discriminate.
  - vm_compute. reflexivity.
  - exists before, message, after. auto.
Defined.

(** ** ChatUtils *)

Lemma run_with_app {St Ev : Type} (step : Ev -> St -> option St) es1 es2 s :
  run_with step (es1 ++ es2) s
  = match run_with step es1 s with
    | Some s' => run_with step es2 s'
    | None => None
    end.
Proof.
  revert s. induction es1 as [|e es1 IH]; intros s; [reflexivity|].
  cbn [app run_with]. destruct (step e s); [apply IH|reflexivity].
Qed.

Lemma debounce_calls {A : Type} (d : debounced A) (calls : list A) (last : A) :
  run_with debounce_step (map Call (calls ++ [last])) d
  = Some {| timeout := Some last; executed := executed d |}.
Proof.
  revert d. induction calls as [|a calls IH]; intros d; [reflexivity|].
  cbn [app map run_with debounce_step]. now rewrite IH.
Qed.

(** X18. Of a burst of calls of a debounced function, whatever timer was
    pending before it, only the last one counts: when the timer runs out
    [func] is called once, with the arguments of the last call. *)
Theorem debounce_burst {A : Type} (d : debounced A) (calls : list A) (last : A) :
  run_with debounce_step (map Call (calls ++ [last]) ++ [Elapse]) d
  = Some {| timeout := None; executed := executed d ++ [last] |}.
Proof. rewrite run_with_app, debounce_calls. reflexivity. Qed.

Lemma debounce_run {A : Type} (es : list (util_event A)) : forall d d',
  run_with debounce_step es d = Some d' ->
  exists ran,
    executed d' = executed d ++ ran
    /\ (ran ++ option_list (timeout d')) `sublist_of` (option_list (timeout d) ++ calls_of es)
    /\ length ran = elapses es.
Proof.
  induction es as [|e es IH]; intros d d' Hrun; cbn [run_with] in Hrun.
  - injection Hrun as <-. exists []. rewrite !app_nil_r. auto.
  - destruct e as [args|]; cbn [debounce_step] in Hrun.
    + destruct (IH _ _ Hrun) as (ran & H1 & H2 & H3). exists ran.
      split; [exact H1|]. split; [|exact H3].
      cbn [timeout option_list app] in H2.
      change (calls_of (Call args :: es)) with (args :: calls_of es).
      now apply sublist_inserts_l.
    + destruct (timeout d) as [args|] eqn:Ht; [|discriminate].
      destruct (IH _ _ Hrun) as (ran & H1 & H2 & H3). exists (args :: ran).
      cbn [executed timeout option_list app] in H1, H2.
      split; [now rewrite H1, <- app_assoc|]. split.
      * change (calls_of (Elapse :: es)) with (calls_of es).
        cbn [option_list app]. now apply sublist_skip.
      * cbn [elapses length]. now rewrite H3.
Qed.

(** X19. A debounced function calls [func] only when a timer runs out,
    never in a call of its own: over any run of calls and timers the
    arguments [func] was called with are a subsequence of the arguments
    of the calls, one per timer that ran out. *)
Theorem debounce_runs_on_timer {A : Type} (es : list (util_event A))
    (d : debounced A) :
  run_with debounce_step es debounce = Some d ->
  executed d `sublist_of` calls_of es
  /\ length (executed d) = elapses es.
Proof.
  intros Hrun. destruct (debounce_run es debounce d Hrun) as (ran & H1 & H2 & H3).
  cbn in H1, H2. subst ran. split; [|exact H3].
  transitivity (executed d ++ option_list (timeout d)); [|exact H2].
  now apply sublist_inserts_r.
Qed.

Lemma debounce_runs_on_timer_witness :
  executed {| timeout := Some 3; executed := [2] |} `sublist_of` [1; 2; 3]
  /\ length (executed {| timeout := Some 3; executed := [2] |}) = 1.
Proof.
  apply (debounce_runs_on_timer [Call 1; Call 2; Elapse; Call 3]).
  reflexivity.
Defined.

Lemma throttle_dropped {A : Type} (t : throttled A) (calls : list (A * bool)) :
  inThrottle t = true ->
  run_with throttle_step (invokes calls) t = Some t.
Proof.
  intros Ht. induction calls as [|c calls IH]; [reflexivity|].
  cbn [invokes map run_with throttle_step]. now rewrite Ht.
Qed.

Lemma throttle_thrown {A : Type} (t : throttled A) (thrown : list A) :
  inThrottle t = false ->
  run_with throttle_step (map (fun a => Invoke a false) thrown) t
  = Some {| inThrottle := false; resets := resets t;
            applied := applied t ++ thrown |}.
Proof.
  revert t. induction thrown as [|a thrown IH]; intros t Ht.
  - cbn [map run_with]. rewrite app_nil_r. now destruct t; cbn in *; subst.
  - cbn [map run_with throttle_step]. rewrite Ht, IH by reflexivity.
    cbn [resets applied]. now rewrite <- app_assoc.
Qed.

(** X20. A throttled function whose [func] does not call it again: every
    call runs [func] until one call's [func] returns; from then on the
    calls are dropped, whether their [func] would return or throw, and not
    made up for when the timer runs out. The first call after the timer
    runs [func] again. *)
Theorem throttle_burst {A : Type} (thrown : list A) (first next : A)
    (rest more : list (A * bool)) :
  run_with throttle_step
    (map (fun a => Invoke a false) thrown
     ++ Invoke first true :: invokes rest ++ [Reset]) throttle
  = Some {| inThrottle := false; resets := 0; applied := thrown ++ [first] |}
  /\ run_with throttle_step
       (map (fun a => Invoke a false) thrown
        ++ Invoke first true :: invokes rest
        ++ Reset :: Invoke next true :: invokes more) throttle
     = Some {| inThrottle := true; resets := 1;
               applied := thrown ++ [first; next] |}.
Proof.
  split.
  - rewrite run_with_app, throttle_thrown by reflexivity.
    cbn [run_with throttle_step throttle inThrottle resets applied app].
    rewrite run_with_app, throttle_dropped by reflexivity. reflexivity.
  - rewrite run_with_app, throttle_thrown by reflexivity.
    cbn [run_with throttle_step throttle inThrottle resets applied app].
    rewrite run_with_app, throttle_dropped by reflexivity.
    cbn [run_with throttle_step inThrottle resets applied].
    rewrite throttle_dropped by reflexivity.
    now rewrite <- app_assoc.
Qed.




(** ** sanitizeHTML *)

Lemma escape_plain c : is_special c = false -> escape c = [c].
Proof.
  unfold is_special, escape. intros H.
  destruct (c =? 38)%N; [discriminate|]. destruct (c =? 60)%N; [discriminate|].
  destruct (c =? 62)%N; [discriminate|]. destruct (c =? 160)%N; [discriminate|].
  reflexivity.
Qed.

Lemma escape_cases c :
  (is_special c = false /\ escape c = [c])
  \/ (c = 38%N /\ escape c = lit "&amp;")
  \/ (c = 60%N /\ escape c = lit "&lt;")
  \/ (c = 62%N /\ escape c = lit "&gt;")
  \/ (c = 160%N /\ escape c = lit "&nbsp;").
Proof.
  unfold is_special, escape.
  destruct (N.eqb_spec c 38); [subst; auto|].
  destruct (N.eqb_spec c 60); [subst; auto 6|].
  destruct (N.eqb_spec c 62); [subst; auto 6|].
  destruct (N.eqb_spec c 160); [subst; auto 6|].
  auto.
Qed.

Lemma escape_safe c x : In x (escape c) -> is_special x = false \/ x = 38%N.
Proof.
  destruct (escape_cases c) as [[Hs ->]|[[-> ->]|[[-> ->]|[[-> ->]|[-> ->]]]]];
    cbn; intros H;
    repeat (destruct H as [<-|H]; [auto|]); try contradiction.
Qed.

(** X22. The string [sanitizeHTML] returns holds no '<', no '>' and no
    no-break space, whatever [str] is; a [str] without '&', '<', '>' and
    no-break space is returned as it is. *)
Theorem sanitizeHTML_safe (str : jsstring) :
  (forall x, In x (sanitizeHTML str) -> x <> 60%N /\ x <> 62%N /\ x <> 160%N)
  /\ (forallb (fun c => negb (is_special c)) str = true -> sanitizeHTML str = str).
Proof.
  split.
  - intros x Hx. unfold sanitizeHTML in Hx.
    apply in_concat in Hx as (piece & Hp & Hx).
    apply in_map_iff in Hp as (c & <- & _).
    destruct (escape_safe c x Hx) as [Hs| ->]; [|repeat split; discriminate].
    unfold is_special in Hs.
    destruct (N.eqb_spec x 60); [subst; discriminate|].
    destruct (N.eqb_spec x 62); [subst; discriminate|].
    destruct (N.eqb_spec x 160); [subst; discriminate|].
    auto.
  - unfold sanitizeHTML. induction str as [|c str IH]; [reflexivity|].
    cbn [forallb map concat]. intros H. apply andb_prop in H as [Hc Hs].
    apply negb_true_iff in Hc. now rewrite (escape_plain c Hc), (IH Hs).
Qed.

Lemma sanitizeHTML_safe_witness :
  sanitizeHTML (lit "a b") = lit "a b"
  /\ sanitizeHTML (lit "<b>&") = lit "&lt;b&gt;&amp;".
Proof.
  destruct (sanitizeHTML_safe (lit "a b")) as [_ H].
  split; [apply H; vm_compute; reflexivity|vm_compute; reflexivity].
Defined.

Lemma escape_injective c c' x y :
  escape c ++ x = escape c' ++ y -> c = c' /\ x = y.
Proof.
  destruct (escape_cases c) as [[Hs ->]|[[-> ->]|[[-> ->]|[[-> ->]|[-> ->]]]]];
    destruct (escape_cases c') as [[Hs' ->]|[[-> ->]|[[-> ->]|[[-> ->]|[-> ->]]]]];
    cbn; intros H; try discriminate H;
    try (injection H; intros; subst; try discriminate; auto; fail).
Qed.

(** X23. [sanitizeHTML] loses nothing: two strings with the same result
    are the same string. *)
Theorem sanitizeHTML_injective (a b : jsstring) :
  sanitizeHTML a = sanitizeHTML b -> a = b.
Proof.
  unfold sanitizeHTML. revert b.
  induction a as [|c a IH]; intros [|c' b] H; cbn [map concat] in H.
  - reflexivity.
  - destruct (escape_cases c') as [[_ E]|[[_ E]|[[_ E]|[[_ E]|[_ E]]]]];
      rewrite E in H; discriminate H.
  - destruct (escape_cases c) as [[_ E]|[[_ E]|[[_ E]|[[_ E]|[_ E]]]]];
      rewrite E in H; discriminate H.
  - apply escape_injective in H as [-> H]. now rewrite (IH b H).
Qed.

Lemma sanitizeHTML_injective_witness : lit "a<" = lit "a<".
Proof.
  apply (sanitizeHTML_injective (lit "a<") (lit "a<")). reflexivity.
Defined.
